(** * generate_sequence.py: a shallow embedding and its verified properties

    The script reads a JSON configuration, builds [duration * rate] item
    records (id, timestamp, optional colour and material), sorts them by
    their formatted timestamp and prints one JSON object per line.

    Modelling conventions.
    - Python objects coming out of [json.load] are the inductive [pyobj];
      a dict is an association list in insertion order with unique keys,
      read by its first binding.  JSON numerals carrying a fraction or an
      exponent (Python floats) are outside the model.
    - A [str] is a [string] whose characters are the code points below 256.
    - Exceptions are values of [exn]; a computation that may raise returns
      a [result].
    - The process-wide random generator is an explicit state, the infinite
      sequence of raw draws still to come; together with the lines printed
      so far it makes up the state [proc] that the methods thread.
    - The file system and the clock are read through a [world]. *)

From Stdlib Require Import ZArith List String Ascii Bool Lia.
From Stdlib Require Import Permutation Sorted DecimalString DecimalPos.
Import ListNotations.

Local Open Scope string_scope.
Local Open Scope Z_scope.
#[local] Set Warnings "-register-all".

(** ** The fragment of the Python runtime the script relies on *)

Module Py.

(** Exceptions that the builtins used by the script can raise, and the
    plain [Exception(msg)] the script raises itself. *)
Inductive exn : Type :=
| KeyError
| TypeError
| ValueError
| IndexError
| OverflowError
| Exception (msg : string).

Inductive result (A : Type) : Type :=
| Ok (a : A)
| Raise (e : exn).

Arguments Ok {A} a.
Arguments Raise {A} e.

Definition exn_eqb (a b : exn) : bool :=
  match a, b with
  | KeyError, KeyError | TypeError, TypeError | ValueError, ValueError
  | IndexError, IndexError | OverflowError, OverflowError => true
  | Exception m, Exception m' => String.eqb m m'
  | _, _ => false
  end.

(** Objects produced by [json.load]. *)
Inductive pyobj : Type :=
| PNone
| PBool (b : bool)
| PInt (n : Z)
| PStr (s : string)
| PList (l : list pyobj)
| PDict (d : list (string * pyobj)).

(** [d[k]] on a dict: the binding of [k], if any. *)
Fixpoint dict_get (k : string) (d : list (string * pyobj)) : option pyobj :=
  match d with
  | [] => None
  | (k', v) :: d' => if String.eqb k k' then Some v else dict_get k d'
  end.

(** [d[k] = v] on a dict: overwrite in place, or append a new key. *)
Fixpoint dict_set (k : string) (v : pyobj) (d : list (string * pyobj))
  : list (string * pyobj) :=
  match d with
  | [] => [(k, v)]
  | (k', v') :: d' =>
      if String.eqb k k' then (k', v) :: d' else (k', v') :: dict_set k v d'
  end.

(** [o[k]] for a string key [k]: only a dict can be indexed by a string;
    a missing key is a KeyError, any other receiver a TypeError. *)
Definition getitem (o : pyobj) (k : string) : result pyobj :=
  match o with
  | PDict d =>
      match dict_get k d with
      | Some v => Ok v
      | None => Raise KeyError
      end
  | _ => Raise TypeError
  end.

(** *** [int(x)] *)

Definition is_space (c : ascii) : bool :=
  let n := N_of_ascii c in
  (((9 <=? n) && (n <=? 13)) || (n =? 32) || (n =? 133) || (n =? 160))%N.

Definition is_digit (c : ascii) : bool :=
  let n := N_of_ascii c in ((48 <=? n) && (n <=? 57))%N.

Definition digit_value (c : ascii) : Z := Z.of_N (N_of_ascii c) - 48.

Fixpoint lstrip (s : string) : string :=
  match s with
  | String c s' => if is_space c then lstrip s' else s
  | EmptyString => EmptyString
  end.

Definition string_rev (s : string) : string :=
  string_of_list_ascii (rev (list_ascii_of_string s)).

Definition strip (s : string) : string :=
  string_rev (lstrip (string_rev (lstrip s))).

(** Decimal digits, with single underscores allowed between two digits.
    [after_digit] tells whether the previous character was a digit. *)
Fixpoint parse_digits (acc : Z) (after_digit : bool) (s : string) : option Z :=
  match s with
  | EmptyString => if after_digit then Some acc else None
  | String c s' =>
      if is_digit c then parse_digits (10 * acc + digit_value c) true s'
      else if Ascii.eqb c "_" then
        if after_digit then parse_digits acc false s' else None
      else None
  end.

(** [int(s)] for a str: surrounding whitespace, an optional sign, decimal
    digits.  [None] stands for ValueError.  (The interpreter's configurable
    cap on the number of digits is not modelled.) *)
Definition int_of_str (s : string) : option Z :=
  match strip s with
  | String "+" s' => parse_digits 0 false s'
  | String "-" s' => option_map Z.opp (parse_digits 0 false s')
  | s' => parse_digits 0 false s'
  end.

Definition py_int (o : pyobj) : result Z :=
  match o with
  | PInt n => Ok n
  | PBool b => Ok (if b then 1 else 0)
  | PStr s =>
      match int_of_str s with
      | Some n => Ok n
      | None => Raise ValueError
      end
  | PNone | PList _ | PDict _ => Raise TypeError
  end.

(** *** [str(x)] and [repr(x)] *)

Definition str_of_Z (n : Z) : string := NilZero.string_of_int (Z.to_int n).

Definition hex_digit (n : N) : ascii :=
  ascii_of_N (if (n <? 10)%N then 48 + n else 87 + n)%N.

Definition hex2 (c : ascii) : string :=
  let n := N_of_ascii c in
  String (hex_digit (n / 16)%N) (String (hex_digit (n mod 16)%N) EmptyString).

Definition repr_printable (c : ascii) : bool :=
  let n := N_of_ascii c in
  (((32 <=? n) && (n <=? 126)) || ((161 <=? n) && negb (n =? 173)))%N.

Fixpoint contains_char (c : ascii) (s : string) : bool :=
  match s with
  | EmptyString => false
  | String c' s' => Ascii.eqb c c' || contains_char c s'
  end.

Fixpoint repr_escape (quote : ascii) (s : string) : string :=
  match s with
  | EmptyString => EmptyString
  | String c s' =>
      (if Ascii.eqb c "\" then "\\"
       else if Ascii.eqb c quote then String "\" (String c EmptyString)
       else if Ascii.eqb c "009" then "\t"
       else if Ascii.eqb c "010" then "\n"
       else if Ascii.eqb c "013" then "\r"
       else if repr_printable c then String c EmptyString
       else "\x" ++ hex2 c) ++ repr_escape quote s'
  end.

Definition repr_str (s : string) : string :=
  let quote : ascii :=
    if contains_char "'" s && negb (contains_char "034" s)
    then "034"%char else "'"%char in
  String quote (repr_escape quote s ++ String quote EmptyString).

Fixpoint repr (o : pyobj) : string :=
  match o with
  | PNone => "None"
  | PBool b => if b then "True" else "False"
  | PInt n => str_of_Z n
  | PStr s => repr_str s
  | PList l => "[" ++ String.concat ", " (map repr l) ++ "]"
  | PDict d =>
      "{" ++ String.concat ", "
               (map (fun kv => repr_str (fst kv) ++ ": " ++ repr (snd kv)) d)
          ++ "}"
  end.

Definition py_str (o : pyobj) : string :=
  match o with
  | PStr s => s
  | _ => repr o
  end.

End Py.

(** ** The process state and the monad of the script's methods *)

Module Process.
Import Py.

(** The generator state: the raw draws still to come. *)
Definition rng : Type := nat -> N.

Definition rng_head (g : rng) : N := g 0%nat.
Definition rng_tail (g : rng) : rng := fun i => g (S i).

(** What a run can change: the random generator and the lines written
    to standard output so far. *)
Record proc : Type := mk_proc {
  gen : rng;
  stdout : list string
}.

(** A method body: it reads and changes the process state and either
    returns or raises; the state reached survives an exception. *)
Definition M (A : Type) : Type := proc -> result A * proc.

Definition ret {A} (a : A) : M A := fun p => (Ok a, p).

Definition raise {A} (e : exn) : M A := fun p => (Raise e, p).

Definition bind {A B} (m : M A) (k : A -> M B) : M B :=
  fun p =>
    match m p with
    | (Ok a, p') => k a p'
    | (Raise e, p') => (Raise e, p')
    end.

Declare Scope py_scope.
Delimit Scope py_scope with py.
Notation "x <- m ;; k" := (bind m (fun x => k))
  (at level 61, m at next level, right associativity) : py_scope.

(** A builtin that leaves the process state alone. *)
Definition lift {A} (r : result A) : M A := fun p => (r, p).

(** [try: body  except ...: handler]: [handler e] is [None] when no
    except clause matches [e], and the exception propagates. *)
Definition try_except {A} (body : M A) (handler : exn -> option (M A)) : M A :=
  fun p =>
    match body p with
    | (Ok a, p') => (Ok a, p')
    | (Raise e, p') =>
        match handler e with
        | Some h => h p'
        | None => (Raise e, p')
        end
    end.

(** [for x in xs: st = body(x, st)] *)
Fixpoint for_each {A S} (xs : list A) (body : A -> S -> M S) (st : S) : M S :=
  match xs with
  | [] => ret st
  | x :: xs' => bind (body x st) (for_each xs' body)
  end.

(** [range(n)]: only an int can bound a range. *)
Definition py_range (n : option Z) : result (list Z) :=
  match n with
  | Some z => Ok (map Z.of_nat (seq 0 (Z.to_nat z)))
  | None => Raise TypeError
  end.

(** [print(line)] *)
Definition print (line : string) : M unit :=
  fun p => (Ok tt, mk_proc (gen p) (stdout p ++ [line])%list).

End Process.

(** ** The module random *)

Module Random.
Import Py Process.

(** [_randbelow(n)] for [n > 0]: one draw, reduced below [n]. *)
Definition randbelow (n : Z) : M Z :=
  fun p =>
    (Ok (Z.of_N (rng_head (gen p)) mod n), mk_proc (rng_tail (gen p)) (stdout p)).

(** [random.randint(a, b)], that is [randrange(a, b + 1)]. *)
Definition randint (a b : Z) : M Z :=
  let width := b + 1 - a in
  if 0 <? width then bind (randbelow width) (fun i => ret (a + i))
  else raise ValueError.

(** [len(seq)] *)
Definition py_len (seq : pyobj) : result Z :=
  match seq with
  | PList l => Ok (Z.of_nat (List.length l))
  | PStr s => Ok (Z.of_nat (String.length s))
  | PDict d => Ok (Z.of_nat (List.length d))
  | PNone | PBool _ | PInt _ => Raise TypeError
  end.

(** [seq[i]] for an integer [i] with [0 <= i < len(seq)]; the keys of a
    dict read from JSON are strings, so an integer is never one of them. *)
Definition getitem_int (seq : pyobj) (i : Z) : result pyobj :=
  match seq with
  | PList l =>
      match nth_error l (Z.to_nat i) with
      | Some v => Ok v
      | None => Raise IndexError
      end
  | PStr s =>
      match String.get (Z.to_nat i) s with
      | Some c => Ok (PStr (String c EmptyString))
      | None => Raise IndexError
      end
  | PDict _ => Raise KeyError
  | PNone | PBool _ | PInt _ => Raise TypeError
  end.

(** [random.choice(seq)] *)
Definition choice (seq : pyobj) : M pyobj :=
  bind (lift (py_len seq)) (fun n =>
  if n =? 0 then raise IndexError
  else bind (randbelow n) (fun i => lift (getitem_int seq i))).

End Random.

(** ** Naive datetimes *)

Module Datetime.
Import Py.

(** A naive datetime is a point of the proleptic Gregorian calendar:
    the day number ([toordinal()], 1 for 0001-01-01), the second within
    the day and the microsecond within the second. *)
Record datetime : Type := mk_datetime {
  dt_ordinal : Z;
  dt_second : Z;
  dt_microsecond : Z
}.

(** A normalised [timedelta]. *)
Record timedelta : Type := mk_timedelta {
  td_days : Z;
  td_seconds : Z;
  td_microseconds : Z
}.

Definition MAXORDINAL : Z := 3652059.

(** [timedelta(days, seconds)] *)
Definition new_timedelta (days seconds : Z) : result timedelta :=
  let d := days + seconds / 86400 in
  if Z.abs d >? 999999999 then Raise OverflowError
  else Ok (mk_timedelta d (seconds mod 86400) 0).

(** [dt + delta] *)
Definition add (dt : datetime) (delta : timedelta) : result datetime :=
  let us := dt_microsecond dt + td_microseconds delta in
  let s := dt_second dt + td_seconds delta + us / 1000000 in
  let d := dt_ordinal dt + td_days delta + s / 86400 in
  if (0 <? d) && (d <=? MAXORDINAL)
  then Ok (mk_datetime d (s mod 86400) (us mod 1000000))
  else Raise OverflowError.

(** Seconds elapsed since the midnight that starts day 0. *)
Definition total_seconds (dt : datetime) : Z :=
  dt_ordinal dt * 86400 + dt_second dt.

Definition DI400Y : Z := 146097.
Definition DI100Y : Z := 36524.
Definition DI4Y : Z := 1461.

Definition DAYS_IN_MONTH (m : Z) : Z :=
  nth (Z.to_nat m) [0; 31; 28; 31; 30; 31; 30; 31; 31; 30; 31; 30; 31] 0.

Definition DAYS_BEFORE_MONTH (m : Z) : Z :=
  nth (Z.to_nat m)
      [0; 0; 31; 59; 90; 120; 151; 181; 212; 243; 273; 304; 334] 0.

Definition Z_of_bool (b : bool) : Z := if b then 1 else 0.

(** [_ord2ymd(n)]: the year, month and day of day number [n]. *)
Definition ord2ymd (ordinal : Z) : Z * Z * Z :=
  let n := ordinal - 1 in
  let n400 := n / DI400Y in
  let n := n mod DI400Y in
  let year := n400 * 400 + 1 in
  let n100 := n / DI100Y in
  let n := n mod DI100Y in
  let n4 := n / DI4Y in
  let n := n mod DI4Y in
  let n1 := n / 365 in
  let n := n mod 365 in
  let year := year + n100 * 100 + n4 * 4 + n1 in
  if (n1 =? 4) || (n100 =? 4) then (year - 1, 12, 31)
  else
    let leapyear := (n1 =? 3) && (negb (n4 =? 24) || (n100 =? 3)) in
    let month := Z.shiftr (n + 50) 5 in
    let preceding :=
      DAYS_BEFORE_MONTH month + Z_of_bool ((2 <? month) && leapyear) in
    if preceding >? n then
      let month := month - 1 in
      let preceding :=
        preceding - (DAYS_IN_MONTH month
                     + Z_of_bool ((month =? 2) && leapyear)) in
      (year, month, n - preceding + 1)
    else (year, month, n - preceding + 1).

Definition year (dt : datetime) : Z := fst (fst (ord2ymd (dt_ordinal dt))).
Definition month (dt : datetime) : Z := snd (fst (ord2ymd (dt_ordinal dt))).
Definition day (dt : datetime) : Z := snd (ord2ymd (dt_ordinal dt)).
Definition hour (dt : datetime) : Z := dt_second dt / 3600.
Definition minute (dt : datetime) : Z := (dt_second dt mod 3600) / 60.
Definition second (dt : datetime) : Z := dt_second dt mod 60.

(** A decimal number padded with zeros to two digits. *)
Definition pad2 (n : Z) : string :=
  if n <? 10 then "0" ++ str_of_Z n else str_of_Z n.

(** One [strftime] directive.  [%Y] prints the year in decimal, which is
    four digits from the year 1000 on; the directives the script does
    not use are left as they stand. *)
Definition directive (c : ascii) (dt : datetime) : string :=
  if Ascii.eqb c "Y" then str_of_Z (year dt)
  else if Ascii.eqb c "m" then pad2 (month dt)
  else if Ascii.eqb c "d" then pad2 (day dt)
  else if Ascii.eqb c "H" then pad2 (hour dt)
  else if Ascii.eqb c "M" then pad2 (minute dt)
  else if Ascii.eqb c "S" then pad2 (second dt)
  else if Ascii.eqb c "%" then "%"
  else String "%" (String c EmptyString).

(** [dt.strftime(fmt)] *)
Fixpoint strftime (fmt : string) (dt : datetime) : string :=
  match fmt with
  | String "%" (String c fmt') => directive c dt ++ strftime fmt' dt
  | String c fmt' => String c (strftime fmt' dt)
  | EmptyString => EmptyString
  end.

End Datetime.

(** ** The outside world: the file system and the clock *)

Module World.
Import Py Datetime.

(** What [open(path, 'r')] followed by [json.load(file)] does. *)
Inductive file_outcome : Type :=
| CannotOpen
| NotJson
| Loaded (config : pyobj).

Record world : Type := mk_world {
  load_json : string -> file_outcome;
  now : datetime
}.

(** The world [w] with the file at [path] holding the JSON text of [config]. *)
Definition with_file (w : world) (path : string) (config : pyobj) : world :=
  mk_world
    (fun path' => if String.eqb path' path then Loaded config else load_json w path')
    (now w).

End World.

(** ** class GenerateSequenceOfItems *)

Module GenerateSequenceOfItems.
Import Py Process Random Datetime World.
Local Open Scope py_scope.

(** *** String methods used by [check_file_format] *)

(** [s.split(sep)] for a one-character separator. *)
Fixpoint split (sep : ascii) (s : string) : list string :=
  match s with
  | EmptyString => [EmptyString]
  | String c s' =>
      if Ascii.eqb c sep then EmptyString :: split sep s'
      else
        match split sep s' with
        | seg :: segs => String c seg :: segs
        | [] => [String c EmptyString]
        end
  end.

(** [c.upper()] for one character.  Below 256 the lower-case letters are
    a-z and 224-254 without 247; the sharp s (223) becomes "SS".  The
    upper-case forms of 181 and 255 lie above 255 and are not ASCII;
    these two characters are kept, which is not ASCII either. *)
Definition upper_char (c : ascii) : string :=
  let n := N_of_ascii c in
  if ((97 <=? n) && (n <=? 122))%N then String (ascii_of_N (n - 32)) EmptyString
  else if (n =? 223)%N then "SS"
  else if ((224 <=? n) && (n <=? 254) && negb (n =? 247))%N
       then String (ascii_of_N (n - 32)) EmptyString
  else String c EmptyString.

(** [s.upper()] *)
Fixpoint upper (s : string) : string :=
  match s with
  | EmptyString => EmptyString
  | String c s' => upper_char c ++ upper s'
  end.

(** *** The object and its methods *)

Record self_t : Type := mk_self {
  file_path : string;
  starting_timestamp : datetime
}.

(** [__init__(self, file_path)] *)
Definition init (w : world) (file_path : string) : self_t :=
  mk_self file_path (now w).

Definition check_file_format (self : self_t) : bool :=
  if negb (String.eqb (upper (last (split "." (file_path self)) EmptyString)) "JSON")
  then false
  else true.

(** The truth value of a bound method object such as
    [self.check_file_format] when it is tested without being called. *)
Definition bound_method_truth {A} (self : self_t) (method : self_t -> A) : bool :=
  true.

Definition file_exception : string := "Please provide valid json file.".

Definition parse_config (w : world) (self : self_t) : M pyobj :=
  if bound_method_truth self check_file_format then
    match load_json w (file_path self) with
    | Loaded config_dict => ret config_dict
    | CannotOpen | NotJson => raise (Exception file_exception)
    end
  else raise (Exception file_exception).

(** The except clauses build an [Exception] object and drop it: the
    method then falls off its end and returns [None]. *)
Definition get_duration (config : pyobj) : M (option Z) :=
  try_except
    (v <- lift (getitem config "duration");;
     n <- lift (py_int v);;
     ret (Some n))
    (fun e =>
       match e with
       | KeyError => Some (ret None)
       | ValueError => Some (ret None)
       | _ => None
       end).

Definition get_colour_attribute (config : pyobj) : M (option string) :=
  try_except
    (attributes <- lift (getitem config "attributes");;
     attribute <- lift (getitem attributes "colour");;
     colour_list <- lift (getitem attribute "values");;
     colour <- choice colour_list;;
     ret (Some (py_str colour)))
    (fun e =>
       match e with
       | KeyError => Some (ret None)
       | _ => None
       end).

Definition get_material_attribute (config : pyobj) : M (option string) :=
  try_except
    (attributes <- lift (getitem config "attributes");;
     attribute <- lift (getitem attributes "material");;
     material_list <- lift (getitem attribute "values");;
     material <- choice material_list;;
     ret (Some (py_str material)))
    (fun e =>
       match e with
       | KeyError => Some (ret None)
       | _ => None
       end).

Definition get_rate (config : pyobj) : M (option Z) :=
  try_except
    (rate <- lift (getitem config "rate");;
     rate_min <- lift (getitem rate "min");;
     rate <- lift (getitem config "rate");;
     rate_max <- lift (getitem rate "max");;
     a <- lift (py_int rate_min);;
     b <- lift (py_int rate_max);;
     rate <- randint a b;;
     ret (Some rate))
    (fun e =>
       match e with
       | ValueError => Some (ret None)
       | KeyError | TypeError =>
           Some (try_except
                   (rate <- lift (getitem config "rate");;
                    n <- lift (py_int rate);;
                    ret (Some n))
                   (fun _ => Some (ret None)))
       | _ => None
       end).

(** The dict built for one item: the keys "id" and "timestamp" are
    always there, "colour" and "material" only once they are assigned
    ([None] is an absent key). *)
Record item : Type := mk_item {
  id : Z;
  timestamp : string;
  colour : option string;
  material : option string
}.

(** [sequence["colour"] = c] and [sequence["material"] = m] *)
Definition set_colour (c : string) (sequence : item) : item :=
  mk_item (id sequence) (timestamp sequence) (Some c) (material sequence).

Definition set_material (m : string) (sequence : item) : item :=
  mk_item (id sequence) (timestamp sequence) (colour sequence) (Some m).

Definition timestamp_format : string := "%Y-%d-%m, %H:%M:%S".

Definition build_base_dict (self : self_t) (id : Z) : M item :=
  delta <- lift (new_timedelta 0 (id - 1));;
  timestamp <- lift (add (starting_timestamp self) delta);;
  ret (mk_item id (strftime timestamp_format timestamp) None None).

(** The truth value of a method result that is a str or [None]. *)
Definition truthy (v : option string) : bool :=
  match v with
  | Some (String _ _) => true
  | Some EmptyString | None => false
  end.

(** The local variables that the two loops update. *)
Record locals : Type := mk_locals {
  id_calculator : Z;
  sequence_list : list item
}.

(** The body of the inner loop. *)
Definition loop_body (self : self_t) (config : pyobj) (st : locals) : M locals :=
  sequence <- build_base_dict self (id_calculator st);;
  let id_calculator' := id_calculator st + 1 in
  colour <- get_colour_attribute config;;
  let sequence :=
    match colour with
    | Some c => if truthy colour then set_colour c sequence else sequence
    | None => sequence
    end in
  material <- get_material_attribute config;;
  let sequence :=
    match material with
    | Some m => if truthy material then set_material m sequence else sequence
    | None => sequence
    end in
  ret (mk_locals id_calculator' (sequence_list st ++ [sequence])%list).

(** The two nested loops over [range(duration)] and [range(rate)]. *)
Definition loops (self : self_t) (config : pyobj) (duration rate : option Z)
  : M locals :=
  ds <- lift (py_range duration);;
  for_each ds
    (fun _ st =>
       rs <- lift (py_range rate);;
       for_each rs (fun _ st => loop_body self config st) st)
    (mk_locals 1 []).

(** The first part of [generate_sequence]: the configuration is parsed,
    duration and rate are read, and the list is built in generation
    order. *)
Definition build_sequence_list (w : world) (self : self_t) : M (list item) :=
  config <- parse_config w self;;
  duration <- get_duration config;;
  rate <- get_rate config;;
  st <- loops self config duration rate;;
  ret (sequence_list st).

(** [list.sort(key=lambda item: item['timestamp'])]: a stable sort by
    [<] on the keys.  There is exactly one stable sorted arrangement of a
    list, so insertion from the right stands for the library's merge
    sort. *)
Fixpoint insert_by_timestamp (x : item) (l : list item) : list item :=
  match l with
  | [] => [x]
  | y :: l' =>
      if String.ltb (timestamp y) (timestamp x)
      then y :: insert_by_timestamp x l'
      else x :: l
  end.

Fixpoint sort_by_timestamp (l : list item) : list item :=
  match l with
  | [] => []
  | x :: l' => insert_by_timestamp x (sort_by_timestamp l')
  end.

(** *** [json.dumps] of an item *)

Definition dquote : string := String "034" EmptyString.

Definition hex4 (c : ascii) : string := "00" ++ hex2 c.

Definition json_escape_char (c : ascii) : string :=
  let n := N_of_ascii c in
  if (n =? 34)%N then "\" ++ dquote
  else if (n =? 92)%N then "\\"
  else if (n =? 8)%N then "\b"
  else if (n =? 9)%N then "\t"
  else if (n =? 10)%N then "\n"
  else if (n =? 12)%N then "\f"
  else if (n =? 13)%N then "\r"
  else if ((32 <=? n) && (n <=? 126))%N then String c EmptyString
  else "\u" ++ hex4 c.

Fixpoint json_escape (s : string) : string :=
  match s with
  | EmptyString => EmptyString
  | String c s' => json_escape_char c ++ json_escape s'
  end.

Definition json_str (s : string) : string := dquote ++ json_escape s ++ dquote.

Definition json_field (key : string) (v : option string) : string :=
  match v with
  | Some s => ", " ++ json_str key ++ ": " ++ json_str s
  | None => EmptyString
  end.

Definition json_dumps (sequence : item) : string :=
  "{" ++ json_str "id" ++ ": " ++ str_of_Z (id sequence)
      ++ json_field "timestamp" (Some (timestamp sequence))
      ++ json_field "colour" (colour sequence)
      ++ json_field "material" (material sequence)
      ++ "}".

Definition generate_sequence (w : world) (self : self_t) : M unit :=
  sequence_list <- build_sequence_list w self;;
  let sequence_list := sort_by_timestamp sequence_list in
  for_each sequence_list (fun sequence _ => print (json_dumps sequence)) tt.

(** The module-level statements: the path is the first command-line
    argument. *)
Definition main (w : world) (argv : list string) : M unit :=
  match tl argv with
  | file_path :: _ => generate_sequence w (init w file_path)
  | [] => raise IndexError
  end.

(** A run of the method on a fresh process. *)
Definition run (w : world) (file_path : string) (g : rng) : result unit * proc :=
  generate_sequence w (init w file_path) (mk_proc g []).

End GenerateSequenceOfItems.

(** ** Vocabulary of the specification *)

Module Spec.
Import Py Process Random Datetime World GenerateSequenceOfItems.

(** Equality of two characters up to the case of the letters A-Z. *)
Definition fold_case (c : ascii) : N :=
  let n := N_of_ascii c in
  if ((65 <=? n) && (n <=? 90))%N then (n + 32)%N else n.

Definition caseless_char_eqb (a b : ascii) : bool :=
  (fold_case a =? fold_case b)%N.

(** Equality of two texts up to the case of the letters A-Z. *)
Fixpoint caseless_eqb (s t : string) : bool :=
  match s, t with
  | EmptyString, EmptyString => true
  | String a s', String b t' => caseless_char_eqb a b && caseless_eqb s' t'
  | _, _ => false
  end.

(** The value that the configuration gives for [attributes.<name>.values]. *)
Definition pool (config : pyobj) (name : string) : result pyobj :=
  match getitem config "attributes" with
  | Ok attributes =>
      match getitem attributes name with
      | Ok attribute => getitem attribute "values"
      | Raise e => Raise e
      end
  | Raise e => Raise e
  end.

(** The configuration with its "rate" entry set to [v]. *)
Definition with_rate (v : pyobj) (d : list (string * pyobj)) : pyobj :=
  PDict (dict_set "rate" v d).

(** The range object [{"min": n, "max": n}]. *)
Definition rate_range (lo hi : Z) : pyobj :=
  PDict [("min", PInt lo); ("max", PInt hi)].

(** The process state once one raw draw has been consumed. *)
Definition after_draw (p : proc) : proc := mk_proc (rng_tail (gen p)) (stdout p).

(** What [get_duration] computes from a configuration: the handlers
    turn KeyError and ValueError into the value [None]. *)
Definition duration_of (config : pyobj) : result (option Z) :=
  match
    match getitem config "duration" with
    | Ok v => py_int v
    | Raise e => Raise e
    end
  with
  | Ok n => Ok (Some n)
  | Raise KeyError | Raise ValueError => Ok None
  | Raise e => Raise e
  end.

(** A datetime whose fields are within their ranges. *)
Definition datetime_ok (t : datetime) : bool :=
  (1 <=? dt_ordinal t) && (dt_ordinal t <=? MAXORDINAL)
  && (0 <=? dt_second t) && (dt_second t <? 86400)
  && (0 <=? dt_microsecond t) && (dt_microsecond t <? 1000000).

(** The point of the calendar [n] seconds after [t]. *)
Definition after_seconds (t : datetime) (n : Z) : datetime :=
  let total := total_seconds t + n in
  mk_datetime (total / 86400) (total mod 86400) (dt_microsecond t).

(** The day number is one of the calendar's. *)
Definition on_calendar (t : datetime) : bool :=
  (1 <=? dt_ordinal t) && (dt_ordinal t <=? MAXORDINAL).

(** The first second that no datetime can hold: the midnight that ends
    the year 9999. *)
Definition END_OF_TIME : Z := (MAXORDINAL + 1) * 86400.

(** The text "YYYY-DD-MM, HH:MM:SS" of a datetime: the year, then the
    day, then the month. *)
Definition year_day_month (t : datetime) : string :=
  str_of_Z (year t) ++ "-" ++ pad2 (day t) ++ "-" ++ pad2 (month t) ++ ", "
  ++ pad2 (hour t) ++ ":" ++ pad2 (minute t) ++ ":" ++ pad2 (second t).

(** The month is one of 1..12 and the day one of 1..31. *)
Definition month_day_ok (ymd : Z * Z * Z) : bool :=
  let m := snd (fst ymd) in
  let d := snd ymd in
  (1 <=? m) && (m <=? 12) && (1 <=? d) && (d <=? 31).

(** A value from which [random.choice] can pick without raising
    IndexError or TypeError. *)
Definition drawable (seq : pyobj) : bool :=
  match seq with
  | PList (_ :: _) => true
  | PStr (String _ _) => true
  | PDict (_ :: _) => true
  | _ => false
  end.

(** The attribute is either left out (a key on the way to its values is
    missing) or it has a non-empty pool. *)
Definition draw_safe (config : pyobj) (name : string) : bool :=
  match pool config name with
  | Ok seq => drawable seq
  | Raise KeyError => true
  | Raise _ => false
  end.

(** The integers 1, 2, ..., n. *)
Definition consecutive_ids (n : nat) : list Z := map Z.of_nat (seq 1 n).

(** The common shape of [get_colour_attribute] and
    [get_material_attribute]. *)
Definition get_attribute (name : string) (config : pyobj) : M (option string) :=
  try_except
    (bind (lift (getitem config "attributes")) (fun attributes =>
     bind (lift (getitem attributes name)) (fun attribute =>
     bind (lift (getitem attribute "values")) (fun values =>
     bind (choice values) (fun v => ret (Some (py_str v)))))))
    (fun e =>
       match e with
       | KeyError => Some (ret None)
       | _ => None
       end).

(** The item carries the timestamp of its id: [start] plus [id - 1]
    seconds, written year-day-month. *)
Definition stamped (start : datetime) (it : item) : Prop :=
  timestamp it = year_day_month (after_seconds start (id it - 1)).

(** The state of the two loops once [j] items have been appended, in a
    process that has printed [out]. *)
Definition loop_inv (start : datetime) (out : list string)
  (j : nat) (st : locals) (p : proc) : Prop :=
  id_calculator st = 1 + Z.of_nat j
  /\ map id (sequence_list st) = consecutive_ids j
  /\ Forall (stamped start) (sequence_list st)
  /\ stdout p = out.

(** Order and equality of items by their timestamp text. *)
Definition ts_le (a b : item) : Prop :=
  String.leb (timestamp a) (timestamp b) = true.

Definition has_timestamp (k : string) (it : item) : bool :=
  String.eqb (timestamp it) k.

(** The field that an assignment guarded by [if v:] leaves in the item. *)
Definition kept (v : option string) : option string :=
  if truthy v then v else None.

(** What can be observed of a run: whether it returned or raised, and
    the lines it printed. *)
Definition behaviour (x : result unit * proc) : result unit * list string :=
  (fst x, stdout (snd x)).

(** The generator that yields [x] and then the draws of [g]. *)
Definition rng_cons (x : N) (g : rng) : rng :=
  fun i => match i with O => x | S j => g j end.

End Spec.

(** ** Sample inputs *)

Module Sample.
Import Py Process Random Datetime World GenerateSequenceOfItems.

(** 2023-12-01 13:01:20 *)
Definition clock : datetime := mk_datetime 738855 46880 0.

(** 9999-12-31 23:59:59, the last second of the calendar. *)
Definition last_clock : datetime := mk_datetime 3652059 86399 0.

Definition no_files (t : datetime) : world := mk_world (fun _ => CannotOpen) t.

(** A generator whose raw draws are all 0. *)
Definition zeros : rng := fun _ => 0%N.

Definition fresh : proc := mk_proc zeros [].

Definition values (l : list pyobj) : pyobj := PDict [("values", PList l)].

(** {"duration": d, "rate": r} *)
Definition plain (d r : Z) : list (string * pyobj) :=
  [("duration", PInt d); ("rate", PInt r)].

(** {"duration": d, "rate": r, "attributes": {"colour": {"values": cs},
     "material": {"values": ms}}} *)
Definition with_pools (d r : Z) (cs ms : list pyobj) : pyobj :=
  PDict (plain d r ++
         [("attributes", PDict [("colour", values cs); ("material", values ms)])]).

(** {"duration": d, "rate": r, "attributes": {"colour": {"values": cs}}} *)
Definition with_colours (d r : Z) (cs : list pyobj) : pyobj :=
  PDict (plain d r ++ [("attributes", PDict [("colour", values cs)])]).

(** The world whose only file is "config.json", holding [config]. *)
Definition configured (t : datetime) (config : pyobj) : world :=
  with_file (no_files t) "config.json" config.

End Sample.

(** ** Outcomes of a method: a small program logic *)

Module Outcome.
Import Py Process Random Datetime World GenerateSequenceOfItems Spec Sample.

(** [post m p Q E]: started in the state [p], the method [m] either
    returns a value and a state that satisfy [Q] or raises an exception
    in a state that satisfy [E]. *)
Definition post {A} (m : M A) (p : proc)
  (Q : A -> proc -> Prop) (E : exn -> proc -> Prop) : Prop :=
  match m p with
  | (Ok a, p') => Q a p'
  | (Raise e, p') => E e p'
  end.

(** The exceptions that the building of the list lets through. *)
Definition escapes (e : exn) : bool :=
  match e with
  | TypeError | IndexError | OverflowError => true
  | KeyError | ValueError | Exception _ => false
  end.

(** The state printed [out] and consumed at most [n] more draws than the
    state [p]. *)
Fixpoint drawn (n : nat) (p : proc) : proc :=
  match n with
  | O => p
  | S n' => after_draw (drawn n' p)
  end.

(** The items built so far carry the ids 1, 2, ... in order, each with
    the timestamp of its id, and the counter is one past the last id. *)
Definition numbered (start : datetime) (st : locals) : Prop :=
  id_calculator st = 1 + Z.of_nat (List.length (sequence_list st))
  /\ map id (sequence_list st) = consecutive_ids (List.length (sequence_list st))
  /\ Forall (stamped start) (sequence_list st).

(** The colour of the item, when it has one, is the non-empty text of a
    value of [l]; and the same for its material. *)
Definition text_from (l : list pyobj) (field : option string) : Prop :=
  match field with
  | None => True
  | Some c => c <> EmptyString /\ exists v, In v l /\ c = py_str v
  end.

(** The state of the loops after [j] items: the ids 1 to [j] in order,
    each item stamped when the start time is well formed, and the
    optional fields satisfying [C] and [Mt]. *)
Definition built_inv (start : datetime) (C Mt : option string -> Prop)
  (j : nat) (st : locals) : Prop :=
  List.length (sequence_list st) = j
  /\ id_calculator st = 1 + Z.of_nat j
  /\ map id (sequence_list st) = consecutive_ids j
  /\ (datetime_ok start = true -> Forall (stamped start) (sequence_list st))
  /\ Forall (fun it => C (colour it) /\ Mt (material it)) (sequence_list st).

(** The number of iterations of [for _ in range(n)], where [None] stands
    for a bound that is not an int. *)
Definition iterations (n : option Z) : nat :=
  match n with
  | Some z => Z.to_nat z
  | None => O
  end.

(** The text "HH:MM:SS" of a second of the day. *)
Definition time_text (sec : Z) : string :=
  pad2 (sec / 3600) ++ ":" ++ pad2 ((sec mod 3600) / 60) ++ ":" ++ pad2 (sec mod 60).

(** The characters of a printed line: printable ASCII. *)
Definition printable_ascii (c : ascii) : bool :=
  let n := N_of_ascii c in ((32 <=? n) && (n <=? 126))%N.

Fixpoint all_chars_of (f : ascii -> bool) (s : string) : bool :=
  match s with
  | EmptyString => true
  | String c s' => f c && all_chars_of f s'
  end.

(** Sample runs: duration 2, rate 1, started at [clock]. *)
Definition red_config : pyobj := with_colours 2 1 [PStr "red"].

Definition red_items : list item :=
  [mk_item 1 "2023-01-12, 13:01:20" (Some "red") None;
   mk_item 2 "2023-01-12, 13:01:21" (Some "red") None].

Definition red_paper_config : pyobj := with_pools 2 1 [PStr "red"] [PStr "paper"].

Definition red_paper_items : list item :=
  [mk_item 1 "2023-01-12, 13:01:20" (Some "red") (Some "paper");
   mk_item 2 "2023-01-12, 13:01:21" (Some "red") (Some "paper")].

Definition bare_items : list item :=
  [mk_item 1 "2023-01-12, 13:01:20" None None;
   mk_item 2 "2023-01-12, 13:01:21" None None].

End Outcome.

Import Py Process Random Datetime World GenerateSequenceOfItems Spec Sample.
Local Open Scope py_scope.

(** A statement about one character, settled on each of the 256. *)
Ltac all_chars c :=
  destruct c as [[] [] [] [] [] [] [] []]; reflexivity.

(** A method that returned, in a state that printed nothing more. *)
Ltac returns_ok := do 2 eexists; split; reflexivity.


(** ** check_file_format *)

Lemma split_dotless (s : string) :
  contains_char "." s = false -> split "." s = [s].
Proof.
  induction s as [|c s IH]; cbn [contains_char split]; [reflexivity|].
  rewrite Ascii.eqb_sym.
  destruct (Ascii.eqb c "."); cbn [orb]; [discriminate|].
  intros H. now rewrite (IH H).
Qed.

Lemma upper_step_J c rest :
  String.eqb (upper_char c ++ rest) "JSON"
  = caseless_char_eqb c "j" && String.eqb rest "SON".
Proof. all_chars c. Qed.

Lemma upper_step_S c rest :
  String.eqb (upper_char c ++ rest) "SON"
  = caseless_char_eqb c "s" && String.eqb rest "ON".
Proof. all_chars c. Qed.

Lemma upper_step_O c rest :
  String.eqb (upper_char c ++ rest) "ON"
  = caseless_char_eqb c "o" && String.eqb rest "N".
Proof. all_chars c. Qed.

Lemma upper_step_N c rest :
  String.eqb (upper_char c ++ rest) "N"
  = caseless_char_eqb c "n" && String.eqb rest EmptyString.
Proof. all_chars c. Qed.

Lemma upper_step_end c rest : String.eqb (upper_char c ++ rest) EmptyString = false.
Proof. all_chars c. Qed.

Lemma upper_is_JSON (s : string) :
  String.eqb (upper s) "JSON" = caseless_eqb s "json".
Proof.
  destruct s as [|c1 [|c2 [|c3 [|c4 [|c5 s]]]]]; cbn [upper caseless_eqb];
    rewrite ?upper_step_J, ?upper_step_S, ?upper_step_O, ?upper_step_N,
            ?upper_step_end;
    cbn [String.eqb andb]; rewrite ?andb_false_r, ?andb_true_r; reflexivity.
Qed.

(** C10.  On a path without any '.', [check_file_format] answers [True]
    exactly when the whole path is "json" up to letter case: the last
    '.'-separated segment of such a path is the path itself. *)
Theorem check_file_format_dotless (path : string) (t : datetime) :
  contains_char "." path = false ->
  check_file_format (mk_self path t) = caseless_eqb path "json".
Proof.
  intros H. unfold check_file_format. cbn [file_path].
  rewrite (split_dotless _ H). cbn [last].
  rewrite upper_is_JSON. now destruct (caseless_eqb path "json").
Qed.

(** ** Dicts *)

Lemma dict_get_set_same k v d : dict_get k (dict_set k v d) = Some v.
Proof.
  induction d as [|[k' v'] d IH]; cbn [dict_set dict_get].
  - now rewrite String.eqb_refl.
  - destruct (String.eqb k k') eqn:E; cbn [dict_get]; rewrite E; auto.
Qed.

Lemma dict_get_set_other k k' v d :
  String.eqb k' k = false -> dict_get k' (dict_set k v d) = dict_get k' d.
Proof.
  intros Hk. induction d as [|[k0 v0] d IH]; cbn [dict_set dict_get].
  - now rewrite Hk.
  - destruct (String.eqb k k0) eqn:E; cbn [dict_get].
    + apply String.eqb_eq in E. subst k0. now rewrite Hk.
    + now rewrite IH.
Qed.

Lemma getitem_with_rate v d : getitem (with_rate v d) "rate" = Ok v.
Proof. unfold with_rate, getitem. now rewrite dict_get_set_same. Qed.

Lemma getitem_with_rate_other v d k :
  String.eqb k "rate" = false ->
  getitem (with_rate v d) k = getitem (PDict d) k.
Proof. intros H. unfold with_rate, getitem. now rewrite dict_get_set_other. Qed.

(** ** parse_config *)

Lemma parse_config_spec w self p :
  parse_config w self p =
  match load_json w (file_path self) with
  | Loaded config => (Ok config, p)
  | CannotOpen | NotJson => (Raise (Exception "Please provide valid json file."), p)
  end.
Proof. unfold parse_config. cbn. now destruct (load_json w (file_path self)). Qed.

(** ** get_duration *)

Lemma get_duration_lift config p : get_duration config p = (duration_of config, p).
Proof.
  unfold get_duration, duration_of, try_except, bind, lift, ret.
  destruct (getitem config "duration") as [v|[]]; try reflexivity.
  destruct (py_int v) as [n|[]]; reflexivity.
Qed.

Lemma get_duration_missing d p :
  dict_get "duration" d = None -> get_duration (PDict d) p = (Ok None, p).
Proof.
  intros H. rewrite get_duration_lift. unfold duration_of, getitem. now rewrite H.
Qed.

(** ** get_rate *)

Lemma getitem_raises o k e :
  getitem o k = Raise e -> e = KeyError \/ e = TypeError.
Proof.
  destruct o; cbn; try (intros [= <-]; now right).
  destruct (dict_get k d); [discriminate|]. intros [= <-]. now left.
Qed.

Lemma py_int_raises o e :
  py_int o = Raise e -> e = ValueError \/ e = TypeError.
Proof.
  destruct o; cbn; try discriminate; try (intros [= <-]; now right).
  destruct (int_of_str s); [discriminate|]. intros [= <-]. now left.
Qed.

(** Whatever the configuration, [get_rate] returns, with an int or with
    [None], and prints nothing. *)
Lemma get_rate_returns config p :
  exists r p', get_rate config p = (Ok r, p') /\ stdout p' = stdout p.
Proof.
  unfold get_rate, try_except, bind, lift, ret, randint, raise, randbelow.
  destruct (getitem config "rate") as [rate|e] eqn:E0.
  2:{ destruct (getitem_raises _ _ _ E0) as [-> | ->]; returns_ok. }
  destruct (getitem rate "min") as [rate_min|e] eqn:E1.
  2:{ destruct (getitem_raises _ _ _ E1) as [-> | ->]; destruct (py_int rate); returns_ok. }
  destruct (getitem rate "max") as [rate_max|e] eqn:E2.
  2:{ destruct (getitem_raises _ _ _ E2) as [-> | ->]; destruct (py_int rate); returns_ok. }
  destruct (py_int rate_min) as [a|e] eqn:E3.
  2:{ destruct (py_int_raises _ _ E3) as [-> | ->]; try destruct (py_int rate); returns_ok. }
  destruct (py_int rate_max) as [b|e] eqn:E4.
  2:{ destruct (py_int_raises _ _ E4) as [-> | ->]; try destruct (py_int rate); returns_ok. }
  destruct (0 <? b + 1 - a); returns_ok.
Qed.

Lemma get_rate_range d n p :
  get_rate (with_rate (rate_range n n) d) p = (Ok (Some n), after_draw p).
Proof.
  unfold get_rate, try_except, bind, lift.
  rewrite getitem_with_rate. cbn.
  unfold randint, bind, randbelow, ret.
  replace (n + 1 - n) with 1 by lia. cbn.
  rewrite Z.mod_1_r, Z.add_0_r. reflexivity.
Qed.

Lemma get_rate_plain d n p :
  get_rate (with_rate (PInt n) d) p = (Ok (Some n), p).
Proof.
  unfold get_rate, try_except, bind, lift.
  rewrite getitem_with_rate. reflexivity.
Qed.

(** ** get_colour_attribute and get_material_attribute *)

Lemma get_colour_empty_pool config p :
  pool config "colour" = Ok (PList []) ->
  get_colour_attribute config p = (Raise IndexError, p).
Proof.
  unfold pool, get_colour_attribute, try_except, bind, lift.
  destruct (getitem config "attributes") as [a|]; [|discriminate].
  destruct (getitem a "colour") as [c|]; [|discriminate].
  intros ->. reflexivity.
Qed.

Lemma get_material_empty_pool config p :
  pool config "material" = Ok (PList []) ->
  get_material_attribute config p = (Raise IndexError, p).
Proof.
  unfold pool, get_material_attribute, try_except, bind, lift.
  destruct (getitem config "attributes") as [a|]; [|discriminate].
  destruct (getitem a "material") as [c|]; [|discriminate].
  intros ->. reflexivity.
Qed.

(** ** build_base_dict *)

Lemma datetime_ok_bounds t :
  datetime_ok t = true ->
  1 <= dt_ordinal t <= MAXORDINAL /\ 0 <= dt_second t < 86400
  /\ 0 <= dt_microsecond t < 1000000.
Proof.
  unfold datetime_ok. rewrite !andb_true_iff, !Z.leb_le, !Z.ltb_lt. lia.
Qed.

Lemma on_calendar_bounds t :
  on_calendar t = true <-> 1 <= dt_ordinal t <= MAXORDINAL.
Proof. unfold on_calendar. now rewrite andb_true_iff, !Z.leb_le. Qed.

Lemma total_seconds_after t n :
  total_seconds (after_seconds t n) = total_seconds t + n.
Proof.
  unfold after_seconds, total_seconds at 1. cbn.
  generalize (total_seconds t + n). intros T.
  pose proof (Z.div_mod T 86400). lia.
Qed.

(** [start + timedelta(0, n)] is the point [n] seconds after [start] when
    that point is on the calendar, and an OverflowError otherwise. *)
Lemma add_timedelta_seconds start n :
  datetime_ok start = true ->
  match new_timedelta 0 n with
  | Ok delta => add start delta
  | Raise e => Raise e
  end
  = if on_calendar (after_seconds start n) then Ok (after_seconds start n)
    else Raise OverflowError.
Proof.
  intros Hok. apply datetime_ok_bounds in Hok.
  destruct start as [o s u]. unfold on_calendar, after_seconds, total_seconds in *.
  cbn [dt_ordinal dt_second dt_microsecond] in *.
  unfold MAXORDINAL in *.
  assert (Hd : o + (0 + n / 86400) + (s + n mod 86400) / 86400
               = (o * 86400 + s + n) / 86400).
  { Z.div_mod_to_equations. lia. }
  assert (Hs : (s + n mod 86400) mod 86400 = (o * 86400 + s + n) mod 86400).
  { Z.div_mod_to_equations. lia. }
  unfold new_timedelta.
  destruct (Z.abs (0 + n / 86400) >? 999999999) eqn:Hq.
  - rewrite Z.gtb_ltb in Hq. apply Z.ltb_lt in Hq.
    replace ((1 <=? (o * 86400 + s + n) / 86400)
             && ((o * 86400 + s + n) / 86400 <=? 3652059)) with false;
      [reflexivity|].
    symmetry. apply andb_false_iff. rewrite Z.leb_gt, Z.leb_gt.
    Z.div_mod_to_equations. lia.
  - unfold add.
    cbn [dt_ordinal dt_second dt_microsecond td_days td_seconds td_microseconds].
    rewrite Z.add_0_r, (Z.div_small u), (Z.mod_small u), Z.add_0_r by lia.
    rewrite Hd, Hs.
    replace (0 <? (o * 86400 + s + n) / 86400)
      with (1 <=? (o * 86400 + s + n) / 86400); [reflexivity|].
    destruct (Z.leb_spec 1 ((o * 86400 + s + n) / 86400)),
             (Z.ltb_spec 0 ((o * 86400 + s + n) / 86400)); lia || reflexivity.
Qed.

Lemma append_empty_r (s : string) : (s ++ EmptyString)%string = s.
Proof. induction s as [|c s IH]; cbn; [reflexivity | now rewrite IH]. Qed.

Lemma strftime_timestamp_format t :
  strftime timestamp_format t = year_day_month t.
Proof.
  unfold year_day_month. rewrite <- (append_empty_r (pad2 (second t))).
  reflexivity.
Qed.

Lemma build_base_dict_eval self k p :
  datetime_ok (starting_timestamp self) = true ->
  build_base_dict self k p
  = (if on_calendar (after_seconds (starting_timestamp self) (k - 1))
     then Ok (mk_item k (year_day_month
                           (after_seconds (starting_timestamp self) (k - 1)))
                      None None)
     else Raise OverflowError, p).
Proof.
  intros Hok.
  pose proof (add_timedelta_seconds _ (k - 1) Hok) as H.
  unfold build_base_dict, bind, lift, ret.
  destruct (new_timedelta 0 (k - 1)) as [delta|e].
  - rewrite H.
    destruct (on_calendar (after_seconds (starting_timestamp self) (k - 1)));
      [now rewrite strftime_timestamp_format | reflexivity].
  - destruct (on_calendar (after_seconds (starting_timestamp self) (k - 1)));
      [discriminate | now injection H as ->].
Qed.

Lemma build_base_dict_spec self k p :
  datetime_ok (starting_timestamp self) = true ->
  1 <= dt_ordinal (after_seconds (starting_timestamp self) (k - 1)) <= MAXORDINAL ->
  build_base_dict self k p
  = (Ok (mk_item k (year_day_month (after_seconds (starting_timestamp self) (k - 1)))
                 None None), p).
Proof.
  intros Hok Hin. rewrite (build_base_dict_eval _ _ _ Hok).
  now rewrite (proj2 (on_calendar_bounds _) Hin).
Qed.

(** ** Random draws *)

Lemma randbelow_spec n p :
  0 < n ->
  exists i, randbelow n p = (Ok i, after_draw p) /\ 0 <= i < n.
Proof.
  intros Hn. eexists. split; [reflexivity|]. now apply Z.mod_pos_bound.
Qed.

Lemma string_get_some (s : string) (n : nat) :
  (n < String.length s)%nat -> exists c, String.get n s = Some c.
Proof.
  revert n. induction s as [|c s IH]; cbn; intros n Hn; [lia|].
  destruct n as [|n]; [eauto|]. apply IH. lia.
Qed.

Lemma choice_drawable seq p :
  drawable seq = true ->
  (exists v, choice seq p = (Ok v, after_draw p))
  \/ choice seq p = (Raise KeyError, after_draw p).
Proof.
  intros Hd. unfold choice, bind, lift, raise.
  destruct seq as [| | |s|l|d]; try discriminate; cbn [py_len].
  - destruct s as [|c s]; [discriminate|].
    set (n := Z.of_nat (String.length (String c s))).
    assert (Hn : 0 < n) by (subst n; cbn [String.length]; lia).
    replace (n =? 0) with false by (symmetry; apply Z.eqb_neq; lia).
    destruct (randbelow_spec n p Hn) as [i [-> Hi]]. cbn [getitem_int].
    destruct (string_get_some (String c s) (Z.to_nat i)) as [c' ->]; [lia|].
    left. eauto.
  - destruct l as [|x l]; [discriminate|].
    set (n := Z.of_nat (List.length (x :: l))).
    assert (Hn : 0 < n) by (subst n; cbn [List.length]; lia).
    replace (n =? 0) with false by (symmetry; apply Z.eqb_neq; lia).
    destruct (randbelow_spec n p Hn) as [i [-> Hi]]. cbn [getitem_int].
    destruct (nth_error (x :: l) (Z.to_nat i)) eqn:E.
    + left. eauto.
    + apply nth_error_None in E. lia.
  - destruct d as [|x d]; [discriminate|].
    set (n := Z.of_nat (List.length (x :: d))).
    assert (Hn : 0 < n) by (subst n; cbn [List.length]; lia).
    replace (n =? 0) with false by (symmetry; apply Z.eqb_neq; lia).
    destruct (randbelow_spec n p Hn) as [i [-> Hi]]. now right.
Qed.

Lemma get_colour_is_get_attribute config :
  get_colour_attribute config = get_attribute "colour" config.
Proof. reflexivity. Qed.

Lemma get_material_is_get_attribute config :
  get_material_attribute config = get_attribute "material" config.
Proof. reflexivity. Qed.

Lemma get_attribute_safe name config p :
  draw_safe config name = true ->
  exists v p', get_attribute name config p = (Ok v, p') /\ stdout p' = stdout p.
Proof.
  unfold draw_safe, pool, get_attribute, try_except, bind, lift, ret.
  destruct (getitem config "attributes") as [a|e].
  2:{ destruct e; try discriminate. intros _. returns_ok. }
  destruct (getitem a name) as [c|e].
  2:{ destruct e; try discriminate. intros _. returns_ok. }
  destruct (getitem c "values") as [values|e].
  2:{ destruct e; try discriminate. intros _. returns_ok. }
  intros Hd. destruct (choice_drawable values p Hd) as [[v ->] | ->]; returns_ok.
Qed.

(** ** The loops *)

Lemma loop_body_spec self config st p :
  let start := starting_timestamp self in
  datetime_ok start = true ->
  draw_safe config "colour" = true ->
  draw_safe config "material" = true ->
  1 <= dt_ordinal (after_seconds start (id_calculator st - 1)) <= MAXORDINAL ->
  exists it p',
    loop_body self config st p
    = (Ok (mk_locals (id_calculator st + 1) (sequence_list st ++ [it])), p')
    /\ id it = id_calculator st
    /\ stamped start it
    /\ stdout p' = stdout p.
Proof.
  intros start Hok Hc Hm Hin. unfold loop_body, bind at 1.
  rewrite (build_base_dict_spec _ _ _ Hok Hin).
  unfold bind at 1. rewrite get_colour_is_get_attribute.
  destruct (get_attribute_safe _ _ p Hc) as (c & p1 & -> & Hp1).
  unfold bind at 1. rewrite get_material_is_get_attribute.
  destruct (get_attribute_safe _ _ p1 Hm) as (m & p2 & -> & Hp2).
  unfold ret. do 2 eexists. split; [reflexivity|].
  unfold stamped.
  destruct c as [[|? ?]|], m as [[|? ?]|]; cbn; (split; [reflexivity|]);
    (split; [reflexivity|]); congruence.
Qed.

Lemma for_each_counted {A} (body : A -> locals -> M locals)
  (P : nat -> locals -> proc -> Prop) (bound : nat) :
  (forall x j st p, (j < bound)%nat -> P j st p ->
     exists st' p', body x st p = (Ok st', p') /\ P (S j) st' p') ->
  forall xs j st p, (j + List.length xs <= bound)%nat -> P j st p ->
    exists st' p',
      for_each xs body st p = (Ok st', p') /\ P (j + List.length xs)%nat st' p'.
Proof.
  intros Hbody xs. induction xs as [|x xs IH]; intros j st p Hj HP; cbn [for_each List.length] in *.
  - exists st, p. rewrite Nat.add_0_r. now split.
  - destruct (Hbody x j st p ltac:(lia) HP) as (st1 & p1 & E & HP1).
    unfold bind. rewrite E.
    destruct (IH (S j) st1 p1 ltac:(lia) HP1) as (st2 & p2 & E2 & HP2).
    exists st2, p2. split; [exact E2|].
    now replace (j + S (List.length xs))%nat with (S j + List.length xs)%nat by lia.
Qed.

Lemma consecutive_ids_snoc j : consecutive_ids (S j) = (consecutive_ids j ++ [1 + Z.of_nat j])%list.
Proof.
  unfold consecutive_ids. rewrite seq_S, map_app. cbn [map].
  do 2 f_equal. lia.
Qed.

Lemma loop_body_step self config out bound :
  let start := starting_timestamp self in
  datetime_ok start = true ->
  draw_safe config "colour" = true ->
  draw_safe config "material" = true ->
  total_seconds start + Z.of_nat bound <= END_OF_TIME ->
  forall j st p, (j < bound)%nat -> loop_inv start out j st p ->
    exists st' p',
      loop_body self config st p = (Ok st', p') /\ loop_inv start out (S j) st' p'.
Proof.
  intros start Hok Hc Hm Hend j st p Hj (Hid & Hids & Hst & Hout).
  assert (Hin : 1 <= dt_ordinal (after_seconds start (id_calculator st - 1)) <= MAXORDINAL).
  { pose proof (datetime_ok_bounds _ Hok) as Hb. rewrite Hid.
    unfold after_seconds, END_OF_TIME, total_seconds, MAXORDINAL in *.
    cbn [dt_ordinal]. Z.div_mod_to_equations. lia. }
  destruct (loop_body_spec self config st p Hok Hc Hm Hin)
    as (it & p' & E & Hit & Hstamp & Hp').
  do 2 eexists. split; [exact E|].
  unfold loop_inv. cbn [id_calculator sequence_list].
  repeat split.
  - lia.
  - rewrite map_app, Hids, consecutive_ids_snoc. cbn [map]. now rewrite Hit, Hid.
  - apply Forall_app. split; [assumption|]. now constructor.
  - congruence.
Qed.

Lemma length_py_range n : List.length (map Z.of_nat (seq 0 n)) = n.
Proof. now rewrite length_map, length_seq. Qed.

Lemma loops_spec self config d r p :
  let start := starting_timestamp self in
  datetime_ok start = true ->
  draw_safe config "colour" = true ->
  draw_safe config "material" = true ->
  0 <= d -> 0 <= r ->
  total_seconds start + d * r <= END_OF_TIME ->
  exists st p',
    loops self config (Some d) (Some r) p = (Ok st, p')
    /\ loop_inv start (stdout p) (Z.to_nat (d * r)) st p'.
Proof.
  intros start Hok Hc Hm Hd Hr Hend.
  unfold loops, bind at 1, lift, py_range.
  set (D := Z.to_nat d). set (R := Z.to_nat r).
  assert (HN : Z.to_nat (d * r) = (D * R)%nat) by (subst D R; now rewrite Z2Nat.inj_mul).
  assert (Hend' : total_seconds start + Z.of_nat (D * R) <= END_OF_TIME).
  { rewrite <- HN, Z2Nat.id by lia. exact Hend. }
  pose (P := fun i st q => loop_inv start (stdout p) (i * R) st q).
  destruct (for_each_counted
              (fun (_ : Z) st =>
                 bind (fun q => (Ok (map Z.of_nat (seq 0 R)), q))
                      (fun rs => for_each rs (fun _ st => loop_body self config st) st))
              P D) with (xs := map Z.of_nat (seq 0 D)) (j := 0%nat)
              (st := mk_locals 1 []) (p := p)
    as (st' & p' & E & HP).
  - intros x i st q Hi HPi. unfold bind at 1.
    pose (Q := fun j st q => loop_inv start (stdout p) (i * R + j) st q).
    destruct (for_each_counted (fun (_ : Z) st => loop_body self config st) Q R)
      with (xs := map Z.of_nat (seq 0 R)) (j := 0%nat) (st := st) (p := q)
      as (st1 & q1 & E1 & HQ1).
    + intros y j st0 q0 Hj HQ. unfold Q in *.
      replace (i * R + S j)%nat with (S (i * R + j)) by lia.
      apply (loop_body_step self config (stdout p) (D * R)); auto. nia.
    + rewrite length_py_range. lia.
    + unfold Q. now rewrite Nat.add_0_r.
    + exists st1, q1. split; [exact E1|].
      unfold Q, P in *. rewrite length_py_range in HQ1. cbn [Nat.add] in HQ1.
      now replace (S i * R)%nat with (i * R + R)%nat by lia.
  - rewrite length_py_range. lia.
  - unfold P, loop_inv. cbn. repeat split; auto.
  - exists st', p'. split; [exact E|].
    unfold P in HP. rewrite length_py_range in HP. cbn [Nat.add] in HP.
    now rewrite HN.
Qed.

(** ** Sorting by timestamp *)

Lemma string_compare_trans (a : string) :
  forall b c,
    String.compare a b <> Gt -> String.compare b c <> Gt ->
    String.compare a c <> Gt.
Proof.
  induction a as [|x a IH]; intros [|y b] [|z c]; cbn [String.compare];
    try congruence.
  unfold Ascii.compare.
  destruct (N.compare_spec (N_of_ascii x) (N_of_ascii y)),
           (N.compare_spec (N_of_ascii y) (N_of_ascii z)),
           (N.compare_spec (N_of_ascii x) (N_of_ascii z));
    try congruence; try lia; apply IH.
Qed.

Lemma string_leb_trans a b c :
  String.leb a b = true -> String.leb b c = true -> String.leb a c = true.
Proof.
  unfold String.leb. intros H1 H2.
  pose proof (string_compare_trans a b c) as H.
  destruct (String.compare a b), (String.compare b c), (String.compare a c);
    try reflexivity; try discriminate; exfalso; apply H; congruence.
Qed.

Lemma string_ltb_leb a b : String.ltb a b = true -> String.leb a b = true.
Proof. unfold String.ltb, String.leb. now destruct (String.compare a b). Qed.

Lemma string_not_ltb_leb a b : String.ltb a b = false -> String.leb b a = true.
Proof.
  unfold String.ltb, String.leb. rewrite (String.compare_antisym a b).
  now destruct (String.compare b a).
Qed.

Lemma string_ltb_neq a b : String.ltb a b = true -> a <> b.
Proof.
  unfold String.ltb. intros H ->.
  assert (E : String.compare b b = Eq).
  { pose proof (String.compare_antisym b b) as A.
    destruct (String.compare b b); cbn in A; congruence. }
  now rewrite E in H.
Qed.

Lemma ts_le_trans a b c : ts_le a b -> ts_le b c -> ts_le a c.
Proof. apply string_leb_trans. Qed.

Lemma insert_by_timestamp_perm x l :
  Permutation (x :: l) (insert_by_timestamp x l).
Proof.
  induction l as [|y l IH]; cbn [insert_by_timestamp]; [reflexivity|].
  destruct (String.ltb (timestamp y) (timestamp x)); [|reflexivity].
  rewrite perm_swap. now constructor.
Qed.

Lemma sort_by_timestamp_perm l : Permutation l (sort_by_timestamp l).
Proof.
  induction l as [|x l IH]; cbn [sort_by_timestamp]; [constructor|].
  rewrite <- insert_by_timestamp_perm. now constructor.
Qed.

Lemma insert_by_timestamp_sorted x l :
  StronglySorted ts_le l -> StronglySorted ts_le (insert_by_timestamp x l).
Proof.
  induction l as [|y l IH]; cbn [insert_by_timestamp]; intros Hs.
  - repeat constructor.
  - apply StronglySorted_inv in Hs. destruct Hs as [Hl Hy].
    destruct (String.ltb (timestamp y) (timestamp x)) eqn:E.
    + constructor; [now apply IH|].
      rewrite <- insert_by_timestamp_perm. constructor; [|assumption].
      now apply string_ltb_leb.
    + assert (Hxy : ts_le x y) by now apply string_not_ltb_leb.
      constructor; [now constructor|].
      constructor; [assumption|].
      eapply Forall_impl; [|exact Hy]. intros z Hz. now apply (ts_le_trans x y z).
Qed.

Lemma sort_by_timestamp_sorted l : StronglySorted ts_le (sort_by_timestamp l).
Proof.
  induction l as [|x l IH]; cbn [sort_by_timestamp]; [constructor|].
  now apply insert_by_timestamp_sorted.
Qed.

Lemma insert_by_timestamp_filter k x l :
  filter (has_timestamp k) (insert_by_timestamp x l)
  = filter (has_timestamp k) (x :: l).
Proof.
  induction l as [|y l IH]; cbn [insert_by_timestamp]; [reflexivity|].
  destruct (String.ltb (timestamp y) (timestamp x)) eqn:E; [|reflexivity].
  apply string_ltb_neq in E.
  cbn [filter] in *. rewrite IH. unfold has_timestamp.
  destruct (String.eqb_spec (timestamp y) k), (String.eqb_spec (timestamp x) k);
    congruence.
Qed.

Lemma sort_by_timestamp_stable k l :
  filter (has_timestamp k) (sort_by_timestamp l) = filter (has_timestamp k) l.
Proof.
  induction l as [|x l IH]; cbn [sort_by_timestamp]; [reflexivity|].
  rewrite insert_by_timestamp_filter. cbn [filter]. now rewrite IH.
Qed.

(** ** Printing *)

Lemma print_all l p :
  for_each l (fun sequence _ => print (json_dumps sequence)) tt p
  = (Ok tt, mk_proc (gen p) (stdout p ++ map json_dumps l)).
Proof.
  revert p. induction l as [|x l IH]; intros p; cbn [for_each map].
  - destruct p. unfold ret. cbn. now rewrite app_nil_r.
  - unfold bind, print. rewrite IH. cbn [gen stdout].
    now rewrite <- app_assoc.
Qed.

Lemma generate_sequence_unfold w self p :
  generate_sequence w self p =
  match build_sequence_list w self p with
  | (Ok built, p1) =>
      (Ok tt, mk_proc (gen p1)
                      (stdout p1 ++ map json_dumps (sort_by_timestamp built)))
  | (Raise e, p1) => (Raise e, p1)
  end.
Proof.
  unfold generate_sequence, bind.
  destruct (build_sequence_list w self p) as [[built|e] p1]; [|reflexivity].
  apply print_all.
Qed.

(** C3.  Whatever the run, the records are printed in the order that
    sorting the built list by timestamp text gives: that order is
    non-decreasing for the lexicographic comparison of the timestamp
    strings, it is a rearrangement of the generation order, and records
    with the same timestamp text keep their generation order.  A run
    that raises while building prints nothing more. *)
Theorem generate_sequence_sorted_stable w self p :
  match build_sequence_list w self p with
  | (Ok built, p1) =>
      let emitted := sort_by_timestamp built in
      generate_sequence w self p
      = (Ok tt, mk_proc (gen p1) (stdout p1 ++ map json_dumps emitted))
      /\ StronglySorted ts_le emitted
      /\ Permutation built emitted
      /\ forall k,
           filter (has_timestamp k) emitted = filter (has_timestamp k) built
  | (Raise e, p1) => generate_sequence w self p = (Raise e, p1)
  end.
Proof.
  rewrite generate_sequence_unfold.
  destruct (build_sequence_list w self p) as [[built|e] p1]; [|reflexivity].
  cbn zeta. split; [reflexivity|]. split; [apply sort_by_timestamp_sorted|].
  split; [apply sort_by_timestamp_perm|]. intros k. apply sort_by_timestamp_stable.
Qed.

(** ** The shape of a timestamp *)

Lemma forallb_Z_range (P : Z -> bool) (lo len : Z) :
  forallb (fun i => P (lo + Z.of_nat i)) (seq 0 (Z.to_nat len)) = true ->
  forall n, lo <= n < lo + len -> P n = true.
Proof.
  intros H n Hn. rewrite forallb_forall in H.
  specialize (H (Z.to_nat (n - lo))).
  replace (lo + Z.of_nat (Z.to_nat (n - lo))) with n in H by lia.
  apply H. apply in_seq. lia.
Qed.

Lemma length_pad2 n : 0 <= n < 100 -> String.length (pad2 n) = 2%nat.
Proof.
  intros Hn. apply Nat.eqb_eq.
  apply (forallb_Z_range (fun n => Nat.eqb (String.length (pad2 n)) 2) 0 100);
    [now vm_compute | lia].
Qed.

Lemma length_year n : 1000 <= n <= 9999 -> String.length (str_of_Z n) = 4%nat.
Proof.
  intros Hn. apply Nat.eqb_eq.
  apply (forallb_Z_range (fun n => Nat.eqb (String.length (str_of_Z n)) 4) 1000 9000);
    [now vm_compute | lia].
Qed.

Lemma ord2ymd_month_day ordinal : month_day_ok (ord2ymd ordinal) = true.
Proof.
  unfold ord2ymd.
  set (n400 := (ordinal - 1) / DI400Y).
  set (r400 := (ordinal - 1) mod DI400Y).
  set (n100 := r400 / DI100Y). set (r100 := r400 mod DI100Y).
  set (n4 := r100 / DI4Y). set (r4 := r100 mod DI4Y).
  set (n1 := r4 / 365). set (n := r4 mod 365).
  assert (Hn : 0 <= n < 0 + 365) by (subst n; apply Z.mod_pos_bound; lia).
  generalize (n400 * 400 + 1 + n100 * 100 + n4 * 4 + n1). intros y.
  destruct ((n1 =? 4) || (n100 =? 4)); [reflexivity|].
  generalize ((n1 =? 3) && (negb (n4 =? 24) || (n100 =? 3))). intros leapyear.
  clearbody n. revert n Hn.
  destruct leapyear;
    match goal with
    | |- forall n, _ -> @?b n = true => apply (forallb_Z_range b 0 365)
    end; now vm_compute.
Qed.

Lemma length_append (a b : string) :
  String.length (a ++ b) = (String.length a + String.length b)%nat.
Proof. induction a as [|c a IH]; cbn; [reflexivity | now rewrite IH]. Qed.

(** From the year 1000 on, the text of a well-formed datetime has the
    width of "YYYY-DD-MM, HH:MM:SS": four digits for the year and two
    for every other field. *)
Lemma year_day_month_width t :
  0 <= dt_second t < 86400 -> 1000 <= year t <= 9999 ->
  String.length (str_of_Z (year t)) = 4%nat
  /\ String.length (pad2 (day t)) = 2%nat
  /\ String.length (pad2 (month t)) = 2%nat
  /\ String.length (pad2 (hour t)) = 2%nat
  /\ String.length (pad2 (minute t)) = 2%nat
  /\ String.length (pad2 (second t)) = 2%nat
  /\ String.length (year_day_month t) = 20%nat.
Proof.
  intros Hok Hy.
  pose proof (ord2ymd_month_day (dt_ordinal t)) as Hmd.
  unfold month_day_ok in Hmd. rewrite !andb_true_iff, !Z.leb_le in Hmd.
  assert (H1 := length_year _ Hy).
  assert (H2 : String.length (pad2 (day t)) = 2%nat)
    by (apply length_pad2; unfold day; lia).
  assert (H3 : String.length (pad2 (month t)) = 2%nat)
    by (apply length_pad2; unfold month; lia).
  assert (H4 : String.length (pad2 (hour t)) = 2%nat)
    by (apply length_pad2; unfold hour; Z.div_mod_to_equations; lia).
  assert (H5 : String.length (pad2 (minute t)) = 2%nat)
    by (apply length_pad2; unfold minute; Z.div_mod_to_equations; lia).
  assert (H6 : String.length (pad2 (second t)) = 2%nat)
    by (apply length_pad2; unfold second; Z.div_mod_to_equations; lia).
  repeat split; try assumption.
  unfold year_day_month. rewrite !length_append, H1, H2, H3, H4, H5, H6.
  reflexivity.
Qed.

(** ** The stable sorted arrangement is unique *)






(** ** A printed record is one line *)

Lemma contains_char_append c (a b : string) :
  contains_char c (a ++ b) = contains_char c a || contains_char c b.
Proof.
  induction a as [|x a IH]; cbn [append contains_char]; [reflexivity|].
  now rewrite IH, orb_assoc.
Qed.

Lemma string_of_uint_no_newline (u : Decimal.uint) :
  contains_char "010" (NilEmpty.string_of_uint u) = false.
Proof. induction u; cbn; assumption || reflexivity. Qed.

Lemma str_of_Z_no_newline n : contains_char "010" (str_of_Z n) = false.
Proof.
  unfold str_of_Z, NilZero.string_of_int, NilZero.string_of_uint.
  destruct (Z.to_int n) as [u|u]; destruct u; cbn [contains_char];
    try reflexivity; cbn; apply string_of_uint_no_newline.
Qed.

Lemma json_escape_char_no_newline c :
  contains_char "010" (json_escape_char c) = false.
Proof. all_chars c. Qed.

Lemma json_escape_no_newline s : contains_char "010" (json_escape s) = false.
Proof.
  induction s as [|c s IH]; cbn [json_escape]; [reflexivity|].
  now rewrite contains_char_append, json_escape_char_no_newline, IH.
Qed.

Lemma json_str_no_newline s : contains_char "010" (json_str s) = false.
Proof.
  unfold json_str. now rewrite !contains_char_append, json_escape_no_newline.
Qed.

Lemma json_field_no_newline key v :
  contains_char "010" (json_field key v) = false.
Proof.
  destruct v as [s|]; [|reflexivity]. unfold json_field.
  now rewrite !contains_char_append, !json_str_no_newline.
Qed.

(** The text printed for an item holds no newline. *)
Lemma json_dumps_one_line sequence :
  contains_char "010" (json_dumps sequence) = false.
Proof.
  unfold json_dumps.
  now rewrite !contains_char_append, !json_field_no_newline, json_str_no_newline,
              str_of_Z_no_newline.
Qed.

(** ** generate_sequence: how many records, and which ids *)

Lemma build_sequence_list_spec w path g config d r :
  load_json w path = Loaded config ->
  fst (get_duration config (mk_proc g [])) = Ok (Some d) -> 0 <= d ->
  fst (get_rate config (mk_proc g [])) = Ok (Some r) -> 0 <= r ->
  draw_safe config "colour" = true ->
  draw_safe config "material" = true ->
  datetime_ok (now w) = true ->
  total_seconds (now w) + d * r <= END_OF_TIME ->
  exists built p1,
    build_sequence_list w (init w path) (mk_proc g []) = (Ok built, p1)
    /\ map id built = consecutive_ids (Z.to_nat (d * r))
    /\ Forall (stamped (now w)) built
    /\ stdout p1 = [].
Proof.
  intros Hload Hdur Hd Hrate Hr Hc Hm Hok Hend.
  unfold build_sequence_list, bind at 1.
  rewrite parse_config_spec. cbn [init file_path]. rewrite Hload.
  unfold bind at 1. rewrite get_duration_lift in *. cbn [fst] in Hdur. rewrite Hdur.
  unfold bind at 1.
  destruct (get_rate_returns config (mk_proc g [])) as (r' & p' & E & Hout).
  rewrite E in *. cbn [fst] in Hrate. injection Hrate as ->.
  destruct (loops_spec (init w path) config d r p' Hok Hc Hm Hd Hr Hend)
    as (st & p1 & El & _ & Hids & Hst & Hp1).
  unfold bind. rewrite El. unfold ret.
  exists (sequence_list st), p1. repeat split; try assumption.
  now rewrite Hp1, Hout.
Qed.

Lemma consecutive_ids_NoDup n : NoDup (consecutive_ids n).
Proof.
  unfold consecutive_ids. apply Finite.Injective_map_NoDup.
  - intros a b. apply Nat2Z.inj.
  - apply seq_NoDup.
Qed.

(** C1, as amended.  When the duration resolves to [d >= 0] and the rate
    to [r >= 0], each attribute is either left out or has a non-empty
    pool, and the last timestamp still fits the calendar, the run
    returns and has printed exactly [d * r] lines, each the JSON text of
    one item and free of newlines. *)
Theorem generate_sequence_emits_duration_times_rate w path g config d r :
  load_json w path = Loaded config ->
  fst (get_duration config (mk_proc g [])) = Ok (Some d) -> 0 <= d ->
  fst (get_rate config (mk_proc g [])) = Ok (Some r) -> 0 <= r ->
  draw_safe config "colour" = true ->
  draw_safe config "material" = true ->
  datetime_ok (now w) = true ->
  total_seconds (now w) + d * r <= END_OF_TIME ->
  exists items,
    fst (run w path g) = Ok tt
    /\ stdout (snd (run w path g)) = map json_dumps items
    /\ Forall (fun line => contains_char "010" line = false)
              (stdout (snd (run w path g)))
    /\ Z.of_nat (List.length items) = d * r.
Proof.
  intros Hload Hdur Hd Hrate Hr Hc Hm Hok Hend.
  destruct (build_sequence_list_spec w path g config d r)
    as (built & p1 & E & Hids & _ & Hp1); try assumption.
  unfold run. rewrite generate_sequence_unfold, E. cbn [fst snd stdout].
  exists (sort_by_timestamp built). split; [reflexivity|].
  split; [now rewrite Hp1|].
  split.
  { rewrite Hp1. cbn [app]. apply Forall_map, Forall_forall.
    intros it _. apply json_dumps_one_line. }
  rewrite <- (Permutation_length (sort_by_timestamp_perm built)).
  rewrite <- (length_map id built), Hids.
  unfold consecutive_ids. rewrite length_map, length_seq. nia.
Qed.

(** C2, as amended.  Under the same conditions the list is built in full
    before anything is printed, the ids in generation order are exactly
    1, 2, ..., d * r, without repetition, and the run prints this very
    list sorted: the ids are not reassigned after the sort. *)
Theorem ids_consecutive_in_generation_order w path g config d r :
  load_json w path = Loaded config ->
  fst (get_duration config (mk_proc g [])) = Ok (Some d) -> 0 <= d ->
  fst (get_rate config (mk_proc g [])) = Ok (Some r) -> 0 <= r ->
  draw_safe config "colour" = true ->
  draw_safe config "material" = true ->
  datetime_ok (now w) = true ->
  total_seconds (now w) + d * r <= END_OF_TIME ->
  exists built p1,
    build_sequence_list w (init w path) (mk_proc g []) = (Ok built, p1)
    /\ map id built = consecutive_ids (Z.to_nat (d * r))
    /\ NoDup (map id built)
    /\ stdout p1 = []
    /\ stdout (snd (run w path g)) = map json_dumps (sort_by_timestamp built).
Proof.
  intros Hload Hdur Hd Hrate Hr Hc Hm Hok Hend.
  destruct (build_sequence_list_spec w path g config d r)
    as (built & p1 & E & Hids & _ & Hp1); try assumption.
  exists built, p1. split; [exact E|]. split; [exact Hids|].
  split; [rewrite Hids; apply consecutive_ids_NoDup|]. split; [exact Hp1|].
  unfold run. rewrite generate_sequence_unfold, E. cbn [snd stdout].
  now rewrite Hp1.
Qed.

(** C4.  From a well-formed start time [t], the item built for id [k]
    carries the id [k] and the text of the point [k - 1] seconds after
    [t], written with the year first, then the day, then the month, in
    the twenty characters of "YYYY-DD-MM, HH:MM:SS" from the year 1000
    on; when that point lies off the calendar no item is built and an
    OverflowError is raised. *)
Theorem build_base_dict_timestamp self k p :
  datetime_ok (starting_timestamp self) = true ->
  build_base_dict self k p
  = (if on_calendar (after_seconds (starting_timestamp self) (k - 1))
     then Ok (mk_item k
                (year_day_month (after_seconds (starting_timestamp self) (k - 1)))
                None None)
     else Raise OverflowError, p)
  /\ total_seconds (after_seconds (starting_timestamp self) (k - 1))
     = total_seconds (starting_timestamp self) + (k - 1)
  /\ dt_microsecond (after_seconds (starting_timestamp self) (k - 1))
     = dt_microsecond (starting_timestamp self)
  /\ (1000 <= year (after_seconds (starting_timestamp self) (k - 1)) <= 9999 ->
      String.length
        (year_day_month (after_seconds (starting_timestamp self) (k - 1)))
      = 20%nat).
Proof.
  intros Hok. split; [now apply build_base_dict_eval|].
  split; [apply total_seconds_after|]. split; [reflexivity|].
  intros Hy. apply year_day_month_width; [|assumption].
  unfold after_seconds. cbn [dt_second]. apply Z.mod_pos_bound. lia.
Qed.

(** C5.  The file "config.txt" holds valid JSON.  Its extension fails
    [check_file_format], yet [parse_config] returns the configuration and
    the run prints a record: the method object is tested, not called. *)
Theorem parse_config_accepts_any_extension :
  let w := with_file (no_files clock) "config.txt" (PDict (plain 1 1)) in
  check_file_format (init w "config.txt") = false
  /\ parse_config w (init w "config.txt") fresh = (Ok (PDict (plain 1 1)), fresh)
  /\ run w "config.txt" zeros
     = (Ok tt,
        mk_proc zeros (map json_dumps [mk_item 1 "2023-01-12, 13:01:20" None None])).
Proof. cbn zeta. repeat split; reflexivity. Qed.

(** C6.  On a configuration object without the key "duration",
    [get_duration] raises nothing and returns [None]; the run then stops
    on the TypeError of [range(None)], having printed nothing. *)
Theorem get_duration_missing_key w path g d :
  load_json w path = Loaded (PDict d) ->
  dict_get "duration" d = None ->
  get_duration (PDict d) (mk_proc g []) = (Ok None, mk_proc g [])
  /\ fst (run w path g) = Raise TypeError
  /\ stdout (snd (run w path g)) = [].
Proof.
  intros Hload Hd. split; [now apply get_duration_missing|].
  assert (E : exists p', build_sequence_list w (init w path) (mk_proc g [])
                         = (Raise TypeError, p') /\ stdout p' = []).
  { unfold build_sequence_list, bind at 1.
    rewrite parse_config_spec. cbn [init file_path]. rewrite Hload.
    unfold bind at 1. rewrite (get_duration_missing _ _ Hd).
    unfold bind at 1.
    destruct (get_rate_returns (PDict d) (mk_proc g [])) as (r & p' & -> & Hout).
    exists p'. now split. }
  destruct E as (p' & E & Hout).
  unfold run. rewrite generate_sequence_unfold, E. now split.
Qed.

(** C7.  When the configuration gives the empty list for
    [attributes.colour.values] (or [attributes.material.values]), the
    draw raises IndexError: the method does not return [None]. *)
Theorem empty_pool_raises config p :
  (pool config "colour" = Ok (PList []) ->
   get_colour_attribute config p = (Raise IndexError, p))
  /\ (pool config "material" = Ok (PList []) ->
      get_material_attribute config p = (Raise IndexError, p)).
Proof.
  split; [apply get_colour_empty_pool | apply get_material_empty_pool].
Qed.

Lemma seq_from_positive (d : Z) :
  1 <= d -> exists k, map Z.of_nat (seq 0 (Z.to_nat d)) = 0 :: k.
Proof.
  intros Hd. destruct (Z.to_nat d) as [|n] eqn:E; [lia|].
  cbn [seq map]. eauto.
Qed.

Lemma loop_body_empty_colour self config p :
  datetime_ok (starting_timestamp self) = true ->
  pool config "colour" = Ok (PList []) ->
  loop_body self config (mk_locals 1 []) p = (Raise IndexError, p).
Proof.
  intros Hok Hpool. unfold loop_body, bind. cbn [id_calculator].
  rewrite build_base_dict_spec.
  - now rewrite (get_colour_empty_pool _ _ Hpool).
  - exact Hok.
  - apply datetime_ok_bounds in Hok.
    unfold after_seconds, total_seconds. cbn [dt_ordinal].
    unfold MAXORDINAL in *. Z.div_mod_to_equations. lia.
Qed.

(** With at least one slot and one record per slot, a colour pool
    declared empty stops the run at the first draw: IndexError, and
    nothing printed. *)
Lemma empty_colour_pool_stops_the_run w path g config d r :
  load_json w path = Loaded config ->
  fst (get_duration config (mk_proc g [])) = Ok (Some d) -> 1 <= d ->
  fst (get_rate config (mk_proc g [])) = Ok (Some r) -> 1 <= r ->
  pool config "colour" = Ok (PList []) ->
  datetime_ok (now w) = true ->
  fst (run w path g) = Raise IndexError /\ stdout (snd (run w path g)) = [].
Proof.
  intros Hload Hdur Hd Hrate Hr Hpool Hok.
  assert (E : exists p', build_sequence_list w (init w path) (mk_proc g [])
                         = (Raise IndexError, p') /\ stdout p' = []).
  { unfold build_sequence_list, bind at 1.
    rewrite parse_config_spec. cbn [init file_path]. rewrite Hload.
    unfold bind at 1. rewrite get_duration_lift in *. cbn [fst] in Hdur. rewrite Hdur.
    unfold bind at 1.
    destruct (get_rate_returns config (mk_proc g [])) as (r' & p' & E & Hout).
    rewrite E in *. cbn [fst] in Hrate. injection Hrate as ->.
    exists p'. split; [|exact Hout].
    destruct (seq_from_positive d Hd) as [ds Eds].
    destruct (seq_from_positive r Hr) as [rs Ers].
    unfold loops, bind, lift, py_range. rewrite Eds. cbn [for_each].
    unfold bind. rewrite Ers. cbn [for_each]. unfold bind.
    now rewrite (loop_body_empty_colour (init w path) config p' Hok Hpool). }
  destruct E as (p' & E & Hout).
  unfold run. rewrite generate_sequence_unfold, E. now split.
Qed.

(** ** The rate as a range with equal bounds *)

Lemma get_colour_config c1 c2 :
  getitem c1 "attributes" = getitem c2 "attributes" ->
  get_colour_attribute c1 = get_colour_attribute c2.
Proof. intros H. unfold get_colour_attribute. now rewrite H. Qed.

Lemma get_material_config c1 c2 :
  getitem c1 "attributes" = getitem c2 "attributes" ->
  get_material_attribute c1 = get_material_attribute c2.
Proof. intros H. unfold get_material_attribute. now rewrite H. Qed.

Lemma loop_body_config self c1 c2 st p :
  getitem c1 "attributes" = getitem c2 "attributes" ->
  loop_body self c1 st p = loop_body self c2 st p.
Proof.
  intros H. unfold loop_body.
  now rewrite (get_colour_config c1 c2 H), (get_material_config c1 c2 H).
Qed.

Lemma for_each_ext {A S} (body1 body2 : A -> S -> M S) :
  (forall x st p, body1 x st p = body2 x st p) ->
  forall xs st p, for_each xs body1 st p = for_each xs body2 st p.
Proof.
  intros H xs. induction xs as [|x xs IH]; intros st p; cbn [for_each];
    [reflexivity|].
  unfold bind. rewrite H. destruct (body2 x st p) as [[st'|e] p']; auto.
Qed.

Lemma loops_config self c1 c2 duration rate p :
  getitem c1 "attributes" = getitem c2 "attributes" ->
  loops self c1 duration rate p = loops self c2 duration rate p.
Proof.
  intros H. unfold loops, bind at 1 3, lift.
  destruct (py_range duration) as [ds|e]; [|reflexivity].
  apply for_each_ext. intros _ st q. unfold bind.
  destruct (py_range rate) as [rs|e]; [|reflexivity].
  apply for_each_ext. intros _ st' q'. now apply loop_body_config.
Qed.

Lemma build_sequence_list_with_file w path config p :
  build_sequence_list (with_file w path config)
                      (init (with_file w path config) path) p
  = (duration <- get_duration config;;
     rate <- get_rate config;;
     st <- loops (mk_self path (now w)) config duration rate;;
     ret (sequence_list st)) p.
Proof.
  unfold build_sequence_list, bind at 1. rewrite parse_config_spec.
  cbn [init file_path with_file load_json now]. now rewrite String.eqb_refl.
Qed.

Lemma duration_of_with_rate v d : duration_of (with_rate v d) = duration_of (PDict d).
Proof. unfold duration_of. now rewrite getitem_with_rate_other. Qed.

Lemma run_with_file w path config g :
  run (with_file w path config) path g =
  match duration_of config with
  | Raise e => (Raise e, mk_proc g [])
  | Ok duration =>
      match get_rate config (mk_proc g []) with
      | (Raise e, p1) => (Raise e, p1)
      | (Ok rate, p1) =>
          match loops (mk_self path (now w)) config duration rate p1 with
          | (Raise e, p2) => (Raise e, p2)
          | (Ok st, p2) =>
              (Ok tt,
               mk_proc (gen p2)
                 (stdout p2
                  ++ map json_dumps (sort_by_timestamp (sequence_list st))))
          end
      end
  end.
Proof.
  unfold run. rewrite generate_sequence_unfold, build_sequence_list_with_file.
  unfold bind. rewrite get_duration_lift.
  destruct (duration_of config) as [duration|e]; [|reflexivity].
  destruct (get_rate config (mk_proc g [])) as [[rate|e] p1]; [|reflexivity].
  now destruct (loops (mk_self path (now w)) config duration rate p1)
    as [[st|e] p2].
Qed.

(** C8.  With the rate written as the range object whose two bounds are
    [n], [get_rate] returns [n], as it does for the plain integer [n].
    The range form consumes one raw draw to pick from its single value;
    this draw set aside, the two runs return or raise alike and print the
    same lines, so both forms have the same possible behaviours. *)
Theorem rate_range_equal_bounds w path d n g p :
  get_rate (with_rate (rate_range n n) d) p = (Ok (Some n), after_draw p)
  /\ get_rate (with_rate (PInt n) d) p = (Ok (Some n), p)
  /\ behaviour (run (with_file w path (with_rate (rate_range n n) d)) path g)
     = behaviour (run (with_file w path (with_rate (PInt n) d)) path (rng_tail g))
  /\ (forall x,
        behaviour (run (with_file w path (with_rate (PInt n) d)) path g)
        = behaviour (run (with_file w path (with_rate (rate_range n n) d)) path
                         (rng_cons x g))).
Proof.
  split; [apply get_rate_range|]. split; [apply get_rate_plain|].
  assert (E : forall g0,
    behaviour (run (with_file w path (with_rate (rate_range n n) d)) path g0)
    = behaviour (run (with_file w path (with_rate (PInt n) d)) path (rng_tail g0))).
  { intros g0. rewrite !run_with_file, !duration_of_with_rate.
    destruct (duration_of (PDict d)) as [duration|e]; [|reflexivity].
    rewrite get_rate_range, get_rate_plain.
    rewrite (loops_config _ (with_rate (rate_range n n) d) (with_rate (PInt n) d)).
    2:{ now rewrite !getitem_with_rate_other. }
    reflexivity. }
  split; [apply E|]. intros x. now rewrite E.
Qed.

Lemma str_of_Z_not_empty n : str_of_Z n <> EmptyString.
Proof.
  unfold str_of_Z, NilZero.string_of_int, NilZero.string_of_uint.
  destruct (Z.to_int n) as [u|u]; destruct u; discriminate.
Qed.

(** [str(v)] is empty for the empty str only. *)
Lemma py_str_empty v : py_str v = EmptyString <-> v = PStr EmptyString.
Proof.
  split; [|now intros ->].
  destruct v as [| [|] |n|s|l|d]; cbn; try discriminate.
  - intros H. now apply str_of_Z_not_empty in H.
  - now intros ->.
Qed.

Lemma build_base_dict_state self k p : snd (build_base_dict self k p) = p.
Proof.
  unfold build_base_dict, bind, lift, ret.
  destruct (new_timedelta 0 (k - 1)) as [delta|]; [|reflexivity].
  now destruct (add (starting_timestamp self) delta).
Qed.

(** C9.  Whenever the loop body completes, the item it appends has the
    key "colour" exactly when the colour method returned a non-empty
    str, and likewise for "material": a drawn empty string leaves the
    key out, as does [None], whatever the configuration declares. *)
Theorem loop_body_field_presence self config st p st' p' :
  loop_body self config st p = (Ok st', p') ->
  exists it c p1 m,
    get_colour_attribute config p = (Ok c, p1)
    /\ get_material_attribute config p1 = (Ok m, p')
    /\ sequence_list st' = (sequence_list st ++ [it])%list
    /\ colour it = kept c
    /\ material it = kept m
    /\ (c = Some EmptyString -> colour it = None)
    /\ (m = Some EmptyString -> material it = None).
Proof.
  unfold loop_body, bind.
  pose proof (build_base_dict_state self (id_calculator st) p) as Hp.
  destruct (build_base_dict self (id_calculator st) p) as [[sequence|e] p0] eqn:E0;
    [|discriminate].
  cbn [snd] in Hp. subst p0.
  assert (Hbase : colour sequence = None /\ material sequence = None).
  { unfold build_base_dict, bind, lift, ret in E0.
    destruct (new_timedelta 0 (id_calculator st - 1)) as [delta|]; [|discriminate].
    destruct (add (starting_timestamp self) delta); [|discriminate].
    injection E0 as <-. now split. }
  destruct Hbase as [Hbc Hbm].
  destruct (get_colour_attribute config p) as [[c|e] p1] eqn:Ec; [|discriminate].
  destruct (get_material_attribute config p1) as [[m|e] p2] eqn:Em; [|discriminate].
  unfold ret. intros [= <- <-].
  eexists _, c, p1, m. split; [reflexivity|]. split; [exact Em|].
  split; [reflexivity|].
  destruct c as [[|? ?]|], m as [[|? ?]|]; cbn; repeat split; 
    try assumption; try reflexivity; try discriminate; intros _; assumption.
Qed.

(** ** Concrete runs *)

(** C1 on a sample: duration 2, rate 3, two colours and one material. *)
Lemma generate_sequence_emits_duration_times_rate_witness :
  exists items,
    fst (run (configured clock (with_pools 2 3 [PStr "red"; PStr "blue"] [PStr "paper"]))
             "config.json" zeros) = Ok tt
    /\ stdout (snd (run (configured clock
                           (with_pools 2 3 [PStr "red"; PStr "blue"] [PStr "paper"]))
                        "config.json" zeros))
       = map json_dumps items
    /\ Forall (fun line => contains_char "010" line = false)
         (stdout (snd (run (configured clock
                              (with_pools 2 3 [PStr "red"; PStr "blue"] [PStr "paper"]))
                           "config.json" zeros)))
    /\ Z.of_nat (List.length items) = 2 * 3.
Proof.
  apply (generate_sequence_emits_duration_times_rate
           (configured clock (with_pools 2 3 [PStr "red"; PStr "blue"] [PStr "paper"]))
           "config.json" zeros
           (with_pools 2 3 [PStr "red"; PStr "blue"] [PStr "paper"]) 2 3);
    try reflexivity; try lia; vm_compute; discriminate.
Defined.

(** C2 on a sample: duration 2, rate 2, ids 1 to 4. *)
Lemma ids_consecutive_in_generation_order_witness :
  exists built p1,
    build_sequence_list (configured clock (with_colours 2 2 [PStr "red"]))
      (init (configured clock (with_colours 2 2 [PStr "red"])) "config.json") fresh
    = (Ok built, p1)
    /\ map id built = [1; 2; 3; 4]
    /\ NoDup (map id built)
    /\ stdout p1 = []
    /\ stdout (snd (run (configured clock (with_colours 2 2 [PStr "red"]))
                        "config.json" zeros))
       = map json_dumps (sort_by_timestamp built).
Proof.
  apply (ids_consecutive_in_generation_order
           (configured clock (with_colours 2 2 [PStr "red"]))
           "config.json" zeros (with_colours 2 2 [PStr "red"]) 2 2);
    try reflexivity; try lia; vm_compute; discriminate.
Defined.

(** C4 on a sample: started on 2023-12-01 at 13:01:20, the item of id 2
    is stamped one second later, day before month. *)
Lemma build_base_dict_timestamp_witness :
  build_base_dict (mk_self "config.json" clock) 2 fresh
  = (Ok (mk_item 2 "2023-01-12, 13:01:21" None None), fresh).
Proof.
  apply (build_base_dict_timestamp (mk_self "config.json" clock) 2 fresh).
  reflexivity.
Defined.

(** C6 on a sample: the configuration {"rate": 1}. *)
Lemma get_duration_missing_key_witness :
  get_duration (PDict [("rate", PInt 1)]) fresh = (Ok None, fresh)
  /\ fst (run (configured clock (PDict [("rate", PInt 1)])) "config.json" zeros)
     = Raise TypeError
  /\ stdout (snd (run (configured clock (PDict [("rate", PInt 1)]))
                      "config.json" zeros)) = [].
Proof.
  apply (get_duration_missing_key
           (configured clock (PDict [("rate", PInt 1)])) "config.json" zeros
           [("rate", PInt 1)]); reflexivity.
Defined.

(** C7 on a sample: both pools declared empty. *)
Lemma empty_pool_raises_witness :
  get_colour_attribute (with_pools 1 1 [] []) fresh = (Raise IndexError, fresh)
  /\ get_material_attribute (with_pools 1 1 [] []) fresh = (Raise IndexError, fresh).
Proof.
  destruct (empty_pool_raises (with_pools 1 1 [] []) fresh) as [Hc Hm].
  split; [apply Hc | apply Hm]; reflexivity.
Defined.

(** C9 on a sample: the colour pool holds the empty string and "red",
    and the draw picks the empty string. *)
Lemma loop_body_field_presence_witness :
  exists it c p1 m,
    get_colour_attribute (with_colours 1 1 [PStr EmptyString; PStr "red"]) fresh = (Ok c, p1)
    /\ get_material_attribute (with_colours 1 1 [PStr EmptyString; PStr "red"]) p1
       = (Ok m, after_draw fresh)
    /\ [mk_item 1 "2023-01-12, 13:01:20" None None] = ([] ++ [it])%list
    /\ colour it = kept c
    /\ material it = kept m
    /\ (c = Some EmptyString -> colour it = None)
    /\ (m = Some EmptyString -> material it = None).
Proof.
  apply (loop_body_field_presence (mk_self "config.json" clock)
           (with_colours 1 1 [PStr EmptyString; PStr "red"]) (mk_locals 1 []) fresh
           (mk_locals 2 [mk_item 1 "2023-01-12, 13:01:20" None None])
           (after_draw fresh)).
  reflexivity.
Defined.

(** C10 on a sample: the path "JSON". *)
Lemma check_file_format_dotless_witness :
  check_file_format (mk_self "JSON" clock) = true.
Proof. exact (check_file_format_dotless "JSON" clock eq_refl). Defined.

(** A declared, non-empty colour pool and yet a record without the key
    "colour": the draw picked the empty string. *)
Lemma declared_pool_item_without_colour :
  run (configured clock (with_colours 1 1 [PStr EmptyString; PStr "red"])) "config.json" zeros
  = (Ok tt,
     mk_proc (rng_tail zeros)
       (map json_dumps [mk_item 1 "2023-01-12, 13:01:20" None None])).
Proof. reflexivity. Qed.

(** Sorting by the year-day-month text is not sorting by time: a run
    started at 2023-01-31 23:59:59 prints its second record first. *)
Lemma emitted_order_differs_from_generation_order :
  run (configured (mk_datetime 738551 86399 0) (PDict (plain 2 1))) "config.json" zeros
  = (Ok tt,
     mk_proc zeros
       (map json_dumps [mk_item 2 "2023-01-02, 00:00:00" None None;
                        mk_item 1 "2023-31-01, 23:59:59" None None])).
Proof. reflexivity. Qed.

(** C1 as stated fails.  (1) With the colour pool declared empty, the
    duration resolves to 1 and the rate to 1, yet the run raises
    IndexError at the first draw and prints nothing.  (2) Started in the
    last second of the year 9999 with duration 1 and rate 2, the run
    raises OverflowError at the second timestamp and prints nothing. *)
Lemma run_can_raise_instead_of_emitting :
  (fst (get_duration (with_colours 1 1 []) fresh) = Ok (Some 1)
   /\ fst (get_rate (with_colours 1 1 []) fresh) = Ok (Some 1)
   /\ run (configured clock (with_colours 1 1 [])) "config.json" zeros
      = (Raise IndexError, fresh)
   /\ Z.of_nat (List.length (stdout (snd (run (configured clock (with_colours 1 1 []))
                                              "config.json" zeros)))) <> 1 * 1)
  /\ (fst (get_duration (PDict (plain 1 2)) fresh) = Ok (Some 1)
      /\ fst (get_rate (PDict (plain 1 2)) fresh) = Ok (Some 2)
      /\ run (configured last_clock (PDict (plain 1 2))) "config.json" zeros
         = (Raise OverflowError, fresh)
      /\ Z.of_nat (List.length (stdout (snd (run (configured last_clock (PDict (plain 1 2)))
                                                 "config.json" zeros)))) <> 1 * 2).
Proof. repeat split; try reflexivity; vm_compute; discriminate. Qed.

(** C2 as stated fails.  (1) With duration -1 and rate -1 the product is
    1, yet no record is built.  (2) With the colour pool declared empty,
    duration 2 and rate 1, building stops on IndexError at the first
    draw.  (3) Started in the last second of the year 9999 with duration
    1 and rate 2, building stops on OverflowError at the second
    timestamp. *)
Lemma ids_can_fall_short_of_the_product :
  (fst (get_duration (PDict (plain (-1) (-1))) fresh) = Ok (Some (-1))
   /\ fst (get_rate (PDict (plain (-1) (-1))) fresh) = Ok (Some (-1))
   /\ build_sequence_list (configured clock (PDict (plain (-1) (-1))))
        (init (configured clock (PDict (plain (-1) (-1)))) "config.json") fresh
      = (Ok [], fresh)
   /\ @nil Z <> consecutive_ids (Z.to_nat (-1 * -1)))
  /\ (fst (get_duration (with_colours 2 1 []) fresh) = Ok (Some 2)
      /\ fst (get_rate (with_colours 2 1 []) fresh) = Ok (Some 1)
      /\ build_sequence_list (configured clock (with_colours 2 1 []))
           (init (configured clock (with_colours 2 1 [])) "config.json") fresh
         = (Raise IndexError, fresh))
  /\ (fst (get_duration (PDict (plain 1 2)) fresh) = Ok (Some 1)
      /\ fst (get_rate (PDict (plain 1 2)) fresh) = Ok (Some 2)
      /\ build_sequence_list (configured last_clock (PDict (plain 1 2)))
           (init (configured last_clock (PDict (plain 1 2))) "config.json") fresh
         = (Raise OverflowError, fresh)).
Proof. repeat split; try reflexivity; vm_compute; discriminate. Qed.

(** ** The model against the interpreter, on samples *)

Example int_of_str_samples :
  map int_of_str [" 12 "; "+1"; "-7"; "1_0"; "1__0"; "_1"; "007"; EmptyString; "1.0"; "x"]
  = [Some 12; Some 1; Some (-7); Some 10; None; None; Some 7; None; None; None].
Proof. reflexivity. Qed.

Example py_str_samples :
  map py_str [PStr "red"; PStr EmptyString; PInt (-5); PBool true; PNone;
              PList [PInt 1; PStr "a"]; PDict [("k", PNone)]]
  = ["red"; EmptyString; "-5"; "True"; "None"; "[1, 'a']"; "{'k': None}"].
Proof. reflexivity. Qed.

Example ord2ymd_samples :
  map ord2ymd [1; 693655; 730485; 738551; 738945; 3652059]
  = [(1, 1, 1); (1900, 3, 1); (2000, 12, 31); (2023, 1, 31); (2024, 2, 29);
     (9999, 12, 31)].
Proof. reflexivity. Qed.

Example check_file_format_samples :
  map (fun path => check_file_format (mk_self path clock))
      ["config.json"; "a.b.JsOn"; "JSON"; "config.json.txt"; "config."; "config"; EmptyString]
  = [true; true; true; false; false; false; false].
Proof. reflexivity. Qed.

Example json_dumps_sample :
  json_dumps (mk_item 1 "2023-01-12, 13:01:20" (Some "red") None)
  = ("{" ++ dquote ++ "id" ++ dquote ++ ": 1, "
         ++ dquote ++ "timestamp" ++ dquote ++ ": "
         ++ dquote ++ "2023-01-12, 13:01:20" ++ dquote ++ ", "
         ++ dquote ++ "colour" ++ dquote ++ ": " ++ dquote ++ "red" ++ dquote
         ++ "}")%string.
Proof. reflexivity. Qed.

(** {"duration": 2, "rate": 1}: two records, ids 1 and 2, one second
    apart, without colour or material. *)
Example two_slots_one_per_slot :
  run (configured clock (PDict (plain 2 1))) "config.json" zeros
  = (Ok tt,
     mk_proc zeros
       (map json_dumps [mk_item 1 "2023-01-12, 13:01:20" None None;
                        mk_item 2 "2023-01-12, 13:01:21" None None])).
Proof. reflexivity. Qed.

(** A file that cannot be opened, or that does not hold JSON, fails with
    the message of [file_exception], and nothing is printed. *)
Example unreadable_file_fails :
  run (no_files clock) "config.json" zeros
  = (Raise (Exception "Please provide valid json file."), fresh)
  /\ run (mk_world (fun _ => NotJson) clock) "config.json" zeros
     = (Raise (Exception "Please provide valid json file."), fresh).
Proof. split; reflexivity. Qed.

(** A range whose bounds are in the wrong order makes [get_rate] return
    [None], as does a rate that is not a number. *)
Example get_rate_swallows_errors :
  fst (get_rate (with_rate (rate_range 3 2) []) fresh) = Ok None
  /\ fst (get_rate (with_rate (PStr "fast") []) fresh) = Ok None
  /\ fst (get_rate (PDict []) fresh) = Ok None.
Proof. repeat split; reflexivity. Qed.

Import Outcome.

(** ** Rules of the program logic *)

Lemma post_ret {A} (a : A) p (Q : A -> proc -> Prop) E : Q a p -> post (ret a) p Q E.
Proof. intros H. exact H. Qed.

Lemma post_raise {A} e p (Q : A -> proc -> Prop) (E : exn -> proc -> Prop) :
  E e p -> post (@raise A e) p Q E.
Proof. intros H. exact H. Qed.

Lemma post_lift {A} (r : result A) p (Q : A -> proc -> Prop) (E : exn -> proc -> Prop) :
  match r with Ok a => Q a p | Raise e => E e p end -> post (lift r) p Q E.
Proof. unfold post, lift. now destruct r. Qed.

Lemma post_bind {A B} (m : M A) (k : A -> M B) p
  (Q : B -> proc -> Prop) (E : exn -> proc -> Prop) :
  post m p (fun a p' => post (k a) p' Q E) E -> post (bind m k) p Q E.
Proof. unfold post, bind. now destruct (m p) as [[a|e] p']. Qed.

Lemma post_try {A} (body : M A) handler p
  (Q : A -> proc -> Prop) (E : exn -> proc -> Prop) :
  post body p Q
       (fun e p' => match handler e with
                    | Some h => post h p' Q E
                    | None => E e p'
                    end) ->
  post (try_except body handler) p Q E.
Proof.
  unfold post, try_except. destruct (body p) as [[a|e] p']; [auto|].
  now destruct (handler e).
Qed.

Lemma post_weaken {A} (m : M A) p (Q Q' : A -> proc -> Prop)
  (E E' : exn -> proc -> Prop) :
  post m p Q E ->
  (forall a p', Q a p' -> Q' a p') -> (forall e p', E e p' -> E' e p') ->
  post m p Q' E'.
Proof.
  unfold post. destruct (m p) as [[a|e] p']; auto.
Qed.

Lemma post_for_each {A S} (body : A -> S -> M S)
  (I : S -> proc -> Prop) (E : exn -> proc -> Prop) :
  (forall x st p, I st p -> post (body x st) p I E) ->
  forall xs st p, I st p -> post (for_each xs body st) p I E.
Proof.
  intros Hbody xs. induction xs as [|x xs IH]; intros st p HI; cbn [for_each].
  - exact HI.
  - apply post_bind. eapply post_weaken; [apply (Hbody x st p HI) | | auto].
    intros st' p' HI'. now apply IH.
Qed.

Lemma post_randbelow n p (Q : Z -> proc -> Prop) E :
  (forall i, (0 < n -> 0 <= i < n) -> Q i (after_draw p)) ->
  post (randbelow n) p Q E.
Proof.
  intros H. unfold post, randbelow. apply H. intros Hn. now apply Z.mod_pos_bound.
Qed.

(** ** What each method prints and raises *)

(** Nothing printed, and only the listed exceptions. *)
Lemma get_duration_outcome config p :
  post (get_duration config) p
       (fun _ p' => p' = p) (fun e p' => p' = p /\ e = TypeError).
Proof.
  unfold post. rewrite get_duration_lift. unfold duration_of.
  destruct (getitem config "duration") as [v|e] eqn:E1.
  - destruct (py_int v) as [n|e] eqn:E2; [reflexivity|].
    destruct (py_int_raises _ _ E2) as [-> | ->]; auto.
  - destruct (getitem_raises _ _ _ E1) as [-> | ->]; auto.
Qed.

Lemma py_len_raises seq e : py_len seq = Raise e -> e = TypeError.
Proof. destruct seq; cbn; congruence. Qed.

Lemma getitem_int_raises seq i e :
  getitem_int seq i = Raise e -> e = IndexError \/ e = KeyError \/ e = TypeError.
Proof.
  destruct seq as [| | |s|l|d]; cbn; try (intros [= <-]; auto).
  - destruct (String.get (Z.to_nat i) s); [discriminate|]. intros [= <-]. auto.
  - destruct (nth_error l (Z.to_nat i)); [discriminate|]. intros [= <-]. auto.
Qed.

Lemma choice_outcome seq p :
  post (choice seq) p
       (fun _ p' => p' = after_draw p)
       (fun e p' => stdout p' = stdout p
                    /\ (e = IndexError \/ e = KeyError \/ e = TypeError)).
Proof.
  unfold choice. apply post_bind, post_lift.
  destruct (py_len seq) as [n|e] eqn:E1.
  2:{ apply py_len_raises in E1. subst. auto. }
  destruct (n =? 0); [apply post_raise; auto|].
  apply post_bind, post_randbelow. intros i _. apply post_lift.
  destruct (getitem_int seq i) as [v|e] eqn:E2; [reflexivity|].
  split; [reflexivity|]. now apply getitem_int_raises in E2.
Qed.

Lemma get_attribute_outcome name config p :
  post (get_attribute name config) p
       (fun _ p' => stdout p' = stdout p)
       (fun e p' => stdout p' = stdout p /\ (e = TypeError \/ e = IndexError)).
Proof.
  unfold get_attribute. apply post_try, post_bind, post_lift.
  destruct (getitem config "attributes") as [a|e] eqn:E1.
  2:{ destruct (getitem_raises _ _ _ E1) as [-> | ->]; [reflexivity | auto]. }
  apply post_bind, post_lift.
  destruct (getitem a name) as [c|e] eqn:E2.
  2:{ destruct (getitem_raises _ _ _ E2) as [-> | ->]; [reflexivity | auto]. }
  apply post_bind, post_lift.
  destruct (getitem c "values") as [values|e] eqn:E3.
  2:{ destruct (getitem_raises _ _ _ E3) as [-> | ->]; [reflexivity | auto]. }
  apply post_bind.
  eapply post_weaken; [apply choice_outcome | |].
  - intros v p' ->. reflexivity.
  - intros e p' [Hp [-> | [-> | ->]]]; cbn; auto.
Qed.

Lemma build_base_dict_outcome self k p :
  post (build_base_dict self k) p
       (fun _ p' => p' = p) (fun e p' => p' = p /\ e = OverflowError).
Proof.
  unfold build_base_dict. apply post_bind, post_lift.
  unfold new_timedelta. destruct (Z.abs _ >? 999999999); [auto|].
  apply post_bind, post_lift. unfold add.
  destruct ((0 <? _) && (_ <=? MAXORDINAL)); [|auto].
  reflexivity.
Qed.

Lemma loop_body_outcome self config st p :
  post (loop_body self config st) p
       (fun _ p' => stdout p' = stdout p)
       (fun e p' => stdout p' = stdout p /\ escapes e = true).
Proof.
  unfold loop_body. apply post_bind.
  eapply post_weaken; [apply build_base_dict_outcome | | ].
  2:{ intros e p' [-> ->]. now split. }
  intros sequence p0 ->. apply post_bind.
  rewrite get_colour_is_get_attribute.
  eapply post_weaken; [apply get_attribute_outcome | | ].
  2:{ intros e p' [Hp [-> | ->]]; now split. }
  intros c p1 Hp1. apply post_bind.
  rewrite get_material_is_get_attribute.
  eapply post_weaken; [apply get_attribute_outcome | | ].
  2:{ intros e p' [Hp [-> | ->]]; split; try reflexivity; congruence. }
  intros m p2 Hp2. apply post_ret. congruence.
Qed.

Lemma loops_outcome self config duration rate p :
  post (loops self config duration rate) p
       (fun _ p' => stdout p' = stdout p)
       (fun e p' => stdout p' = stdout p /\ escapes e = true).
Proof.
  unfold loops. apply post_bind, post_lift.
  destruct duration as [d|]; cbn [py_range]; [|now split].
  apply (post_for_each _ (fun _ p' => stdout p' = stdout p)); [|reflexivity].
  intros _ st q Hq. apply post_bind, post_lift.
  destruct rate as [r|]; cbn [py_range]; [|now split].
  apply (post_for_each _ (fun _ p' => stdout p' = stdout p)); [|exact Hq].
  intros _ st' q' Hq'.
  eapply post_weaken; [apply loop_body_outcome | | ].
  - intros st'' p' Hp'. cbn in *. congruence.
  - intros e p' [Hp' He]. split; congruence.
Qed.

(** The building phase prints nothing; it raises the message of
    [file_exception] when the file does not load, and otherwise only a
    TypeError, an IndexError or an OverflowError. *)
Lemma build_sequence_list_outcome w self p :
  post (build_sequence_list w self) p
       (fun _ p' => stdout p' = stdout p
                    /\ exists config, load_json w (file_path self) = Loaded config)
       (fun e p' => stdout p' = stdout p
                    /\ match load_json w (file_path self) with
                       | Loaded _ => escapes e = true
                       | CannotOpen | NotJson => e = Exception file_exception
                       end).
Proof.
  unfold build_sequence_list. apply post_bind.
  unfold post at 1. rewrite parse_config_spec.
  destruct (load_json w (file_path self)) as [| |config]; [now split | now split |].
  apply post_bind.
  eapply post_weaken; [apply get_duration_outcome | | ].
  2:{ intros e p' [-> ->]. now split. }
  intros duration p0 ->. apply post_bind.
  destruct (get_rate_returns config p) as (rate & p1 & E & Hp1).
  unfold post at 1. rewrite E.
  apply post_bind.
  eapply post_weaken; [apply loops_outcome | | ].
  - intros st p2 Hp2. apply post_ret. split; [congruence | eauto].
  - intros e p2 [Hp2 He]. split; [congruence | assumption].
Qed.

(** ** Further properties of the run *)

(** X1.  A run that raises has printed nothing: every record is printed
    after the whole list has been built and sorted, and nothing can
    raise from there on. *)
Theorem run_that_raises_prints_nothing w path g e :
  fst (run w path g) = Raise e -> stdout (snd (run w path g)) = [].
Proof.
  unfold run. rewrite generate_sequence_unfold.
  pose proof (build_sequence_list_outcome w (init w path) (mk_proc g [])) as H.
  unfold post in H.
  destruct (build_sequence_list w (init w path) (mk_proc g [])) as [[built|e'] p'];
    [discriminate|].
  intros _. now destruct H.
Qed.

(** X2.  A run returns only when the file loads.  It ends on the message
    of [file_exception] exactly when the file cannot be opened or is not
    JSON; once the file is loaded the only exceptions that reach the
    caller are TypeError, IndexError and OverflowError: every KeyError
    and ValueError is caught on the way. *)
Theorem run_exceptions w path g :
  match fst (run w path g), load_json w path with
  | Ok _, Loaded _ => True
  | Ok _, _ => False
  | Raise e, Loaded _ => e = TypeError \/ e = IndexError \/ e = OverflowError
  | Raise e, _ => e = Exception "Please provide valid json file."
  end.
Proof.
  unfold run. rewrite generate_sequence_unfold.
  pose proof (build_sequence_list_outcome w (init w path) (mk_proc g [])) as H.
  unfold post in H. cbn [init file_path] in H.
  destruct (build_sequence_list w (init w path) (mk_proc g [])) as [[built|e] p'];
    cbn [fst].
  - destruct H as [_ [config ->]]. exact I.
  - destruct H as [_ H]. destruct (load_json w path); try exact H.
    destruct e; try discriminate; auto.
Qed.

(** ** get_duration *)


(** ** get_rate *)

Lemma after_draw_cons x g out :
  after_draw (mk_proc (rng_cons x g) out) = mk_proc g out.
Proof. reflexivity. Qed.

Lemma get_rate_on_range d lo hi p :
  get_rate (with_rate (rate_range lo hi) d) p
  = if 0 <? hi + 1 - lo
    then (Ok (Some (lo + Z.of_N (rng_head (gen p)) mod (hi + 1 - lo))), after_draw p)
    else (Ok None, p).
Proof.
  unfold get_rate, try_except, bind, lift.
  rewrite getitem_with_rate. cbn.
  unfold randint, bind, randbelow, ret, raise.
  now destruct (0 <? hi + 1 - lo).
Qed.


(** X5.  For the rate [{"min": lo, "max": hi}] with [lo <= hi],
    [get_rate] consumes one draw and returns an int between [lo] and
    [hi], both included; and every int of that range is returned for
    some draw. *)
Theorem get_rate_range_inclusive d lo hi :
  lo <= hi ->
  (forall p, exists r,
      get_rate (with_rate (rate_range lo hi) d) p = (Ok (Some r), after_draw p)
      /\ lo <= r <= hi)
  /\ (forall r g out, lo <= r <= hi ->
        get_rate (with_rate (rate_range lo hi) d)
                 (mk_proc (rng_cons (Z.to_N (r - lo)) g) out)
        = (Ok (Some r), mk_proc g out)).
Proof.
  intros Hle.
  assert (Hw : (0 <? hi + 1 - lo) = true) by (apply Z.ltb_lt; lia).
  split.
  - intros p. rewrite get_rate_on_range, Hw. eexists. split; [reflexivity|].
    pose proof (Z.mod_pos_bound (Z.of_N (rng_head (gen p))) (hi + 1 - lo)). lia.
  - intros r g out Hr. rewrite get_rate_on_range, Hw.
    rewrite after_draw_cons. cbn [gen]. unfold rng_head, rng_cons.
    rewrite Z2N.id by lia. rewrite Z.mod_small by lia.
    do 3 f_equal. lia.
Qed.

(** X6.  For the rate [{"min": lo, "max": hi}] with [hi < lo], the
    ValueError of the empty range is swallowed: [get_rate] returns [None]
    and consumes no draw. *)
Theorem get_rate_reversed_range d lo hi p :
  hi < lo ->
  get_rate (with_rate (rate_range lo hi) d) p = (Ok None, p).
Proof.
  intros Hlt. rewrite get_rate_on_range.
  now replace (0 <? hi + 1 - lo) with false by (symmetry; apply Z.ltb_ge; lia).
Qed.

(** X7.  When the rate is not an object holding both "min" and "max",
    [get_rate] falls back on [int(rate)]: it returns that int, or [None]
    when the conversion fails, and consumes no draw.  So a numeric
    string is accepted, and null, a list, a non-numeric string or an
    object lacking a bound give [None]. *)
Theorem get_rate_fallback d v p :
  (forall lo hi, getitem v "min" = Ok lo -> getitem v "max" = Ok hi -> False) ->
  get_rate (with_rate v d) p
  = (match py_int v with
     | Ok n => Ok (Some n)
     | Raise _ => Ok None
     end, p).
Proof.
  intros Hv. unfold get_rate, try_except, bind, lift.
  rewrite getitem_with_rate.
  destruct (getitem v "min") as [lo|e] eqn:E1.
  - destruct (getitem v "max") as [hi|e] eqn:E2.
    + now destruct (Hv lo hi).
    + destruct (getitem_raises _ _ _ E2) as [-> | ->]; now destruct (py_int v).
  - destruct (getitem_raises _ _ _ E1) as [-> | ->]; now destruct (py_int v).
Qed.

(** X8.  When the duration resolves to at least 1 and [get_rate] returns
    [None], the run stops on the TypeError of [range(None)] and prints
    nothing. *)
Theorem rate_none_stops_the_run w path g config d :
  load_json w path = Loaded config ->
  fst (get_duration config (mk_proc g [])) = Ok (Some d) -> 1 <= d ->
  fst (get_rate config (mk_proc g [])) = Ok None ->
  fst (run w path g) = Raise TypeError /\ stdout (snd (run w path g)) = [].
Proof.
  intros Hload Hdur Hd Hrate.
  assert (E : exists p', build_sequence_list w (init w path) (mk_proc g [])
                         = (Raise TypeError, p') /\ stdout p' = []).
  { unfold build_sequence_list, bind at 1.
    rewrite parse_config_spec. cbn [init file_path]. rewrite Hload.
    unfold bind at 1. rewrite get_duration_lift in *. cbn [fst] in Hdur. rewrite Hdur.
    unfold bind at 1.
    destruct (get_rate_returns config (mk_proc g [])) as (r' & p' & E & Hout).
    rewrite E in *. cbn [fst] in Hrate. injection Hrate as ->.
    exists p'. split; [|exact Hout].
    destruct (seq_from_positive d Hd) as [ds Eds].
    unfold loops, bind, lift, py_range. rewrite Eds. now cbn [for_each]. }
  destruct E as (p' & E & Hout).
  unfold run. rewrite generate_sequence_unfold, E. now split.
Qed.

(** ** The attribute methods *)

Lemma get_attribute_on_pool name config seq p :
  pool config name = Ok seq ->
  get_attribute name config p
  = match choice seq p with
    | (Ok v, p') => (Ok (Some (py_str v)), p')
    | (Raise KeyError, p') => (Ok None, p')
    | (Raise e, p') => (Raise e, p')
    end.
Proof.
  unfold pool, get_attribute, try_except, bind, lift, ret.
  destruct (getitem config "attributes") as [a|]; [|discriminate].
  destruct (getitem a name) as [c|]; [|discriminate].
  intros ->. destruct (choice seq p) as [[v|[]] p']; reflexivity.
Qed.

Lemma get_attribute_off_pool name config e p :
  pool config name = Raise e ->
  get_attribute name config p
  = (match e with KeyError => Ok None | _ => Raise e end, p).
Proof.
  unfold pool, get_attribute, try_except, bind, lift, ret.
  destruct (getitem config "attributes") as [a|e1].
  2:{ intros [= ->]. now destruct e. }
  destruct (getitem a name) as [c|e2].
  2:{ intros [= ->]. now destruct e. }
  intros ->. now destruct e.
Qed.

Lemma choice_list l p :
  l <> [] ->
  exists v,
    nth_error l (Z.to_nat (Z.of_N (rng_head (gen p)) mod Z.of_nat (List.length l)))
    = Some v
    /\ choice (PList l) p = (Ok v, after_draw p).
Proof.
  intros Hl. unfold choice, bind, lift, raise. cbn [py_len].
  assert (Hn : 0 < Z.of_nat (List.length l)) by (destruct l; [congruence | cbn; lia]).
  replace (Z.of_nat (List.length l) =? 0) with false by (symmetry; apply Z.eqb_neq; lia).
  unfold randbelow. cbn [getitem_int].
  pose proof (Z.mod_pos_bound (Z.of_N (rng_head (gen p))) _ Hn) as Hi.
  destruct (nth_error l _) as [v|] eqn:E.
  - exists v. now split.
  - apply nth_error_None in E. lia.
Qed.

Lemma get_attribute_list_pool name config l p :
  pool config name = Ok (PList l) -> l <> [] ->
  exists v, In v l
            /\ get_attribute name config p = (Ok (Some (py_str v)), after_draw p).
Proof.
  intros Hpool Hl. rewrite (get_attribute_on_pool _ _ _ _ Hpool).
  destruct (choice_list l p Hl) as (v & Hnth & ->).
  exists v. split; [now apply nth_error_In in Hnth | reflexivity].
Qed.

Lemma get_attribute_pick name config l i v g out :
  pool config name = Ok (PList l) -> nth_error l i = Some v ->
  get_attribute name config (mk_proc (rng_cons (N.of_nat i) g) out)
  = (Ok (Some (py_str v)), mk_proc g out).
Proof.
  intros Hpool Hnth. rewrite (get_attribute_on_pool _ _ _ _ Hpool).
  assert (Hl : l <> []) by (intros ->; now destruct i).
  destruct (choice_list l (mk_proc (rng_cons (N.of_nat i) g) out) Hl)
    as (v' & Hnth' & ->).
  rewrite after_draw_cons.
  cbn [gen] in Hnth'. unfold rng_head, rng_cons in Hnth'.
  assert (Hi : (i < List.length l)%nat) by (apply nth_error_Some; congruence).
  rewrite nat_N_Z, Z.mod_small, Nat2Z.id in Hnth' by lia.
  congruence.
Qed.

(** X9.  When the configuration gives a non-empty list for
    [attributes.colour.values], [get_colour_attribute] consumes one draw
    and returns [str] of an element of that list; the element at any
    position is returned for the draw equal to that position.  The same
    holds of [get_material_attribute]. *)
Theorem attribute_drawn_from_pool config l :
  l <> [] ->
  (pool config "colour" = Ok (PList l) ->
   (forall p, exists v, In v l /\
      get_colour_attribute config p = (Ok (Some (py_str v)), after_draw p))
   /\ (forall i v g out, nth_error l i = Some v ->
         get_colour_attribute config (mk_proc (rng_cons (N.of_nat i) g) out)
         = (Ok (Some (py_str v)), mk_proc g out)))
  /\ (pool config "material" = Ok (PList l) ->
      (forall p, exists v, In v l /\
         get_material_attribute config p = (Ok (Some (py_str v)), after_draw p))
      /\ (forall i v g out, nth_error l i = Some v ->
            get_material_attribute config (mk_proc (rng_cons (N.of_nat i) g) out)
            = (Ok (Some (py_str v)), mk_proc g out))).
Proof.
  intros Hl. split; intros Hpool; split.
  - intros p. rewrite get_colour_is_get_attribute.
    now apply get_attribute_list_pool.
  - intros i v g out Hnth. rewrite get_colour_is_get_attribute.
    now apply (get_attribute_pick _ _ l).
  - intros p. rewrite get_material_is_get_attribute.
    now apply get_attribute_list_pool.
  - intros i v g out Hnth. rewrite get_material_is_get_attribute.
    now apply (get_attribute_pick _ _ l).
Qed.

(** X10.  When a key is missing on the way to [attributes.colour.values]
    (no "attributes", no "colour" or no "values"),
    [get_colour_attribute] returns [None] and consumes no draw; when the
    way leads through something that is not an object, the TypeError is
    not caught.  The same holds of [get_material_attribute]. *)
Theorem attribute_left_out config p :
  (pool config "colour" = Raise KeyError ->
   get_colour_attribute config p = (Ok None, p))
  /\ (pool config "colour" = Raise TypeError ->
      get_colour_attribute config p = (Raise TypeError, p))
  /\ (pool config "material" = Raise KeyError ->
      get_material_attribute config p = (Ok None, p))
  /\ (pool config "material" = Raise TypeError ->
      get_material_attribute config p = (Raise TypeError, p)).
Proof.
  rewrite get_colour_is_get_attribute, get_material_is_get_attribute.
  repeat split; intros H; now rewrite (get_attribute_off_pool _ _ _ _ H).
Qed.

(** ** The items of a completed run *)

Lemma post_for_each_counted {A St} (body : A -> St -> M St)
  (I : nat -> St -> proc -> Prop) (E : exn -> proc -> Prop) :
  (forall x j st p, I j st p -> post (body x st) p (I (S j)) E) ->
  forall xs j st p, I j st p ->
    post (for_each xs body st) p (I (j + List.length xs)%nat) E.
Proof.
  intros Hbody xs. induction xs as [|x xs IH]; intros j st p HI;
    cbn [for_each List.length].
  - rewrite Nat.add_0_r. exact HI.
  - apply post_bind. eapply post_weaken; [apply (Hbody x j st p HI) | | auto].
    intros st' p' HI'.
    replace (j + S (List.length xs))%nat with (S j + List.length xs)%nat by lia.
    now apply IH.
Qed.

Lemma build_base_dict_item self k p it p' :
  build_base_dict self k p = (Ok it, p') ->
  id it = k /\ colour it = None /\ material it = None
  /\ (datetime_ok (starting_timestamp self) = true ->
      stamped (starting_timestamp self) it).
Proof.
  intros H. split; [|split; [|split]].
  1-3: unfold build_base_dict, bind, lift, ret in H;
       destruct (new_timedelta 0 (k - 1)) as [delta|]; [|discriminate];
       destruct (add (starting_timestamp self) delta); [|discriminate];
       now injection H as <- _.
  intros Hok. rewrite (build_base_dict_eval _ _ _ Hok) in H.
  destruct (on_calendar _); [|discriminate].
  injection H as <- _. reflexivity.
Qed.

Lemma kept_cases (v : option string) (s : item) (set : string -> item -> item) :
  match v with
  | Some c => if truthy v then set c s else s
  | None => s
  end
  = match kept v with Some c => set c s | None => s end.
Proof. unfold kept. now destruct v as [[|? ?]|]. Qed.

Lemma loop_body_item self config (C Mt : option string -> Prop) j st p :
  (forall q, post (get_colour_attribute config) q
                  (fun c _ => C (kept c)) (fun _ _ => True)) ->
  (forall q, post (get_material_attribute config) q
                  (fun m _ => Mt (kept m)) (fun _ _ => True)) ->
  built_inv (starting_timestamp self) C Mt j st ->
  post (loop_body self config st) p
       (fun st' _ => built_inv (starting_timestamp self) C Mt (S j) st')
       (fun _ _ => True).
Proof.
  intros HC HM (Hlen & Hid & Hids & Hst & Hf).
  unfold loop_body. apply post_bind. unfold post at 1.
  destruct (build_base_dict self (id_calculator st) p) as [[s|e] p0] eqn:E0;
    [|exact I].
  destruct (build_base_dict_item _ _ _ _ _ E0) as (Hsid & Hsc & Hsm & Hss).
  apply post_bind. eapply post_weaken; [apply (HC p0) | | auto].
  intros c p1 Hc. apply post_bind. eapply post_weaken; [apply (HM p1) | | auto].
  intros m p2 Hm. apply post_ret. rewrite !kept_cases.
  unfold built_inv. cbn [sequence_list id_calculator].
  split; [rewrite length_app; cbn; lia|].
  split; [lia|].
  assert (Hitem : forall it,
            it = match kept m with
                 | Some m0 => set_material m0
                                (match kept c with
                                 | Some c0 => set_colour c0 s
                                 | None => s
                                 end)
                 | None => match kept c with
                           | Some c0 => set_colour c0 s
                           | None => s
                           end
                 end ->
            id it = id s /\ timestamp it = timestamp s
            /\ colour it = kept c /\ material it = kept m).
  { intros it ->. destruct (kept c), (kept m); cbn; auto. }
  destruct (Hitem _ eq_refl) as (Hi1 & Hi2 & Hi3 & Hi4).
  split; [rewrite map_app, Hids, consecutive_ids_snoc; cbn [map];
          rewrite Hi1, Hsid, Hid; reflexivity|].
  split.
  - intros Hok. apply Forall_app. split; [auto|]. constructor; [|constructor].
    unfold stamped in *. rewrite Hi1, Hi2. now apply Hss.
  - apply Forall_app. split; [assumption|]. constructor; [|constructor].
    now rewrite Hi3, Hi4.
Qed.

Lemma inner_loop_items self config (C Mt : option string -> Prop) rate base st p :
  (forall q, post (get_colour_attribute config) q
                  (fun c _ => C (kept c)) (fun _ _ => True)) ->
  (forall q, post (get_material_attribute config) q
                  (fun m _ => Mt (kept m)) (fun _ _ => True)) ->
  built_inv (starting_timestamp self) C Mt base st ->
  post (bind (lift (py_range rate))
             (fun rs => for_each rs (fun _ st => loop_body self config st) st)) p
       (fun st' _ => built_inv (starting_timestamp self) C Mt
                       (base + iterations rate) st')
       (fun _ _ => True).
Proof.
  intros HC HM HI. apply post_bind, post_lift.
  destruct rate as [r|]; cbn [py_range iterations]; [|exact I].
  replace (base + Z.to_nat r)%nat
    with (base + List.length (map Z.of_nat (seq 0 (Z.to_nat r))))%nat
    by (now rewrite length_py_range).
  apply (post_for_each_counted
           (fun (_ : Z) st => loop_body self config st)
           (fun j st (_ : proc) => built_inv (starting_timestamp self) C Mt j st)
           (fun _ _ => True)); [|exact HI].
  intros y j st0 q0 HJ. now apply loop_body_item.
Qed.

Lemma loops_items self config (C Mt : option string -> Prop) duration rate p :
  (forall q, post (get_colour_attribute config) q
                  (fun c _ => C (kept c)) (fun _ _ => True)) ->
  (forall q, post (get_material_attribute config) q
                  (fun m _ => Mt (kept m)) (fun _ _ => True)) ->
  post (loops self config duration rate) p
       (fun st _ => built_inv (starting_timestamp self) C Mt
                      (iterations duration * iterations rate) st)
       (fun _ _ => True).
Proof.
  intros HC HM. unfold loops. apply post_bind, post_lift.
  destruct duration as [d|]; cbn [py_range iterations]; [|exact I].
  pose proof (post_for_each_counted
                (fun (_ : Z) st =>
                   bind (lift (py_range rate))
                        (fun rs => for_each rs (fun _ st => loop_body self config st) st))
                (fun i st _ => built_inv (starting_timestamp self) C Mt
                                 (i * iterations rate) st)
                (fun _ _ => True)) as H.
  assert (Hbody : forall (x : Z) (i : nat) (st : locals) (q : proc),
             built_inv (starting_timestamp self) C Mt (i * iterations rate) st ->
             post (bind (lift (py_range rate))
                        (fun rs => for_each rs
                                     (fun _ st => loop_body self config st) st)) q
                  (fun st' _ => built_inv (starting_timestamp self) C Mt
                                  (S i * iterations rate) st')
                  (fun _ _ => True)).
  { intros x i st q HI.
    replace (S i * iterations rate)%nat with (i * iterations rate + iterations rate)%nat
      by (cbn; lia).
    now apply inner_loop_items. }
  specialize (H Hbody (map Z.of_nat (seq 0 (Z.to_nat d))) 0%nat (mk_locals 1 []) p).
  rewrite length_py_range in H. cbn [Nat.add] in H.
  apply H. unfold built_inv. cbn. repeat split; auto.
Qed.

Lemma trivial_field_post {A} (m : M A) q :
  post m q (fun _ _ => True) (fun _ _ => True).
Proof. unfold post. now destruct (m q) as [[a|e] p']. Qed.

(** What a completed build has made, for properties [C] and [Mt] that
    the two attribute methods guarantee on the loaded configuration. *)
Lemma build_sequence_list_items w path g (C Mt : option string -> Prop)
  config built p' :
  load_json w path = Loaded config ->
  (forall q, post (get_colour_attribute config) q
                  (fun c _ => C (kept c)) (fun _ _ => True)) ->
  (forall q, post (get_material_attribute config) q
                  (fun m _ => Mt (kept m)) (fun _ _ => True)) ->
  build_sequence_list w (init w path) (mk_proc g []) = (Ok built, p') ->
  exists d r,
    fst (get_duration config (mk_proc g [])) = Ok d
    /\ fst (get_rate config (mk_proc g [])) = Ok r
    /\ built_inv (now w) C Mt (iterations d * iterations r)
                 (mk_locals (1 + Z.of_nat (List.length built)) built).
Proof.
  intros Hload HC HM.
  unfold build_sequence_list, bind at 1.
  rewrite parse_config_spec. cbn [init file_path]. rewrite Hload.
  unfold bind at 1. rewrite !get_duration_lift. cbn [fst].
  destruct (duration_of config) as [d|e]; [|discriminate].
  unfold bind at 1.
  destruct (get_rate config (mk_proc g [])) as [[r|e] p1]; [|discriminate].
  pose proof (loops_items (init w path) config C Mt d r p1 HC HM) as H.
  unfold post in H. unfold bind.
  destruct (loops (init w path) config d r p1) as [[st|e] p2];
    [|discriminate].
  unfold ret. intros [= <- <-]. exists d, r. split; [reflexivity|].
  split; [reflexivity|].
  destruct H as (Hlen & Hid & Hids & Hst & Hf).
  unfold built_inv. cbn [sequence_list id_calculator starting_timestamp init] in *.
  rewrite Hlen. repeat split; auto.
Qed.

(** X11.  In every run that gets past the building of the list, started
    at a well-formed time, the list holds [max(d, 0) * max(r, 0)]
    items for the duration [d] and the rate [r] read from the
    configuration (none when the rate is not an int, which only a
    duration below 1 lets pass); their ids are 1, 2, ... in order and
    the item of id [k] carries the text of the start time plus [k - 1]
    seconds. *)
Theorem completed_build_items w path g config d r built p' :
  load_json w path = Loaded config ->
  fst (get_duration config (mk_proc g [])) = Ok (Some d) ->
  fst (get_rate config (mk_proc g [])) = Ok r ->
  datetime_ok (now w) = true ->
  build_sequence_list w (init w path) (mk_proc g []) = (Ok built, p') ->
  List.length built = (Z.to_nat d * iterations r)%nat
  /\ map id built = consecutive_ids (List.length built)
  /\ Forall (stamped (now w)) built.
Proof.
  intros Hload Hdur Hrate Hok Hbuild.
  destruct (build_sequence_list_items w path g (fun _ => True) (fun _ => True)
              config built p' Hload) as (d' & r' & Hd' & Hr' & Hinv);
    [intros q; apply post_weaken with (1 := trivial_field_post _ q); auto ..
    | exact Hbuild |].
  rewrite Hdur in Hd'. rewrite Hrate in Hr'.
  injection Hd' as <-. injection Hr' as <-.
  destruct Hinv as (Hlen & _ & Hids & Hst & _).
  cbn [sequence_list iterations] in *.
  split; [exact Hlen|]. split; [now rewrite Hlen | auto].
Qed.

Lemma attribute_post_from_list name config l :
  pool config name = Ok (PList l) ->
  forall q, post (get_attribute name config) q
                 (fun c _ => text_from l (kept c)) (fun _ _ => True).
Proof.
  intros Hpool q. unfold post.
  destruct l as [|x l].
  - rewrite (get_attribute_on_pool _ _ _ _ Hpool). exact I.
  - destruct (get_attribute_list_pool name config (x :: l) q Hpool) as (v & Hin & ->);
      [discriminate|].
    unfold kept, text_from.
    destruct (py_str v) as [|c s] eqn:E; cbn [truthy]; [exact I|].
    split; [discriminate|]. exists v. now split.
Qed.

Lemma attribute_post_single name config v :
  pool config name = Ok (PList [v]) -> py_str v <> EmptyString ->
  forall q, post (get_attribute name config) q
                 (fun c _ => kept c = Some (py_str v)) (fun _ _ => True).
Proof.
  intros Hpool Hv q. unfold post.
  destruct (get_attribute_list_pool name config [v] q Hpool) as (v' & Hin & ->);
    [discriminate|].
  destruct Hin as [<- | []].
  unfold kept. destruct (py_str v); [congruence | reflexivity].
Qed.

Lemma attribute_post_left_out name config :
  pool config name = Raise KeyError ->
  forall q, post (get_attribute name config) q
                 (fun c _ => kept c = None) (fun _ _ => True).
Proof.
  intros Hpool q. unfold post.
  now rewrite (get_attribute_off_pool _ _ _ _ Hpool).
Qed.

(** X12.  In every run that gets past the building of the list, when
    the configuration gives the list [l] for [attributes.colour.values],
    each item either has no key "colour" or has for colour the non-empty
    [str] of an element of [l]; and the same for "material". *)
Theorem fields_come_from_the_pools w path g config built p' :
  load_json w path = Loaded config ->
  build_sequence_list w (init w path) (mk_proc g []) = (Ok built, p') ->
  (forall l, pool config "colour" = Ok (PList l) ->
             Forall (fun it => text_from l (colour it)) built)
  /\ (forall l, pool config "material" = Ok (PList l) ->
                Forall (fun it => text_from l (material it)) built).
Proof.
  intros Hload Hbuild. split; intros l Hpool.
  - destruct (build_sequence_list_items w path g (text_from l) (fun _ => True)
                config built p' Hload) as (d & r & _ & _ & Hinv);
      [ rewrite get_colour_is_get_attribute; now apply attribute_post_from_list
      | intros q; apply post_weaken with (1 := trivial_field_post _ q); auto
      | exact Hbuild |].
    destruct Hinv as (_ & _ & _ & _ & Hf). cbn [sequence_list] in Hf.
    eapply Forall_impl; [|exact Hf]. now intros it [H _].
  - destruct (build_sequence_list_items w path g (fun _ => True) (text_from l)
                config built p' Hload) as (d & r & _ & _ & Hinv);
      [ intros q; apply post_weaken with (1 := trivial_field_post _ q); auto
      | rewrite get_material_is_get_attribute; now apply attribute_post_from_list
      | exact Hbuild |].
    destruct Hinv as (_ & _ & _ & _ & Hf). cbn [sequence_list] in Hf.
    eapply Forall_impl; [|exact Hf]. now intros it [_ H].
Qed.

(** X13.  In every run that gets past the building of the list, when a
    key is missing on the way to [attributes.colour.values], no item has
    the key "colour"; and the same for "material". *)
Theorem left_out_attribute_never_appears w path g config built p' :
  load_json w path = Loaded config ->
  build_sequence_list w (init w path) (mk_proc g []) = (Ok built, p') ->
  (pool config "colour" = Raise KeyError ->
   Forall (fun it => colour it = None) built)
  /\ (pool config "material" = Raise KeyError ->
      Forall (fun it => material it = None) built).
Proof.
  intros Hload Hbuild. split; intros Hpool.
  - destruct (build_sequence_list_items w path g (fun f => f = None) (fun _ => True)
                config built p' Hload) as (d & r & _ & _ & Hinv);
      [ rewrite get_colour_is_get_attribute; now apply attribute_post_left_out
      | intros q; apply post_weaken with (1 := trivial_field_post _ q); auto
      | exact Hbuild |].
    destruct Hinv as (_ & _ & _ & _ & Hf). cbn [sequence_list] in Hf.
    eapply Forall_impl; [|exact Hf]. now intros it [H _].
  - destruct (build_sequence_list_items w path g (fun _ => True) (fun f => f = None)
                config built p' Hload) as (d & r & _ & _ & Hinv);
      [ intros q; apply post_weaken with (1 := trivial_field_post _ q); auto
      | rewrite get_material_is_get_attribute; now apply attribute_post_left_out
      | exact Hbuild |].
    destruct Hinv as (_ & _ & _ & _ & Hf). cbn [sequence_list] in Hf.
    eapply Forall_impl; [|exact Hf]. now intros it [_ H].
Qed.

(** X14.  In every run that gets past the building of the list, when
    the colour pool is the one-element list [[v]] and [str(v)] is not
    empty, every item has the colour [str(v)]; and the same for
    "material". *)
Theorem single_value_pool w path g config v built p' :
  load_json w path = Loaded config ->
  py_str v <> EmptyString ->
  build_sequence_list w (init w path) (mk_proc g []) = (Ok built, p') ->
  (pool config "colour" = Ok (PList [v]) ->
   Forall (fun it => colour it = Some (py_str v)) built)
  /\ (pool config "material" = Ok (PList [v]) ->
      Forall (fun it => material it = Some (py_str v)) built).
Proof.
  intros Hload Hv Hbuild. split; intros Hpool.
  - destruct (build_sequence_list_items w path g
                (fun f => f = Some (py_str v)) (fun _ => True)
                config built p' Hload) as (d & r & _ & _ & Hinv);
      [ rewrite get_colour_is_get_attribute; now apply attribute_post_single
      | intros q; apply post_weaken with (1 := trivial_field_post _ q); auto
      | exact Hbuild |].
    destruct Hinv as (_ & _ & _ & _ & Hf). cbn [sequence_list] in Hf.
    eapply Forall_impl; [|exact Hf]. now intros it [H _].
  - destruct (build_sequence_list_items w path g
                (fun _ => True) (fun f => f = Some (py_str v))
                config built p' Hload) as (d & r & _ & _ & Hinv);
      [ intros q; apply post_weaken with (1 := trivial_field_post _ q); auto
      | rewrite get_material_is_get_attribute; now apply attribute_post_single
      | exact Hbuild |].
    destruct Hinv as (_ & _ & _ & _ & Hf). cbn [sequence_list] in Hf.
    eapply Forall_impl; [|exact Hf]. now intros it [_ H].
Qed.

(** ** Runs without records *)

Lemma for_each_skip {A} (xs : list A) (st : locals) p :
  for_each xs (fun _ st => ret st) st p = (Ok st, p).
Proof.
  induction xs as [|x xs IH]; cbn [for_each]; [reflexivity|].
  unfold bind, ret at 1. exact IH.
Qed.

Lemma loops_no_slot self config d rate p :
  d <= 0 -> loops self config (Some d) rate p = (Ok (mk_locals 1 []), p).
Proof.
  intros Hd. unfold loops, bind, lift, py_range.
  replace (Z.to_nat d) with 0%nat by lia. reflexivity.
Qed.

Lemma loops_no_record self config d r p :
  r <= 0 -> loops self config (Some d) (Some r) p = (Ok (mk_locals 1 []), p).
Proof.
  intros Hr. unfold loops, bind at 1, lift, py_range.
  replace (Z.to_nat r) with 0%nat by lia. cbn [seq map].
  erewrite for_each_ext; [apply for_each_skip|].
  intros x st q. reflexivity.
Qed.

(** X15.  When the duration resolves to an int below 1, or the rate to
    an int below 1, the run returns and prints nothing, whatever else the
    configuration holds: no attribute is drawn, so even a pool declared
    empty does no harm, and with no slot the rate is not even looked
    at. *)
Theorem no_slot_or_no_record_prints_nothing w path g config d r :
  load_json w path = Loaded config ->
  fst (get_duration config (mk_proc g [])) = Ok (Some d) ->
  fst (get_rate config (mk_proc g [])) = Ok r ->
  d <= 0 \/ (exists z, r = Some z /\ z <= 0) ->
  fst (run w path g) = Ok tt /\ stdout (snd (run w path g)) = [].
Proof.
  intros Hload Hdur Hrate Hzero.
  assert (E : exists p', build_sequence_list w (init w path) (mk_proc g [])
                         = (Ok [], p') /\ stdout p' = []).
  { unfold build_sequence_list, bind at 1.
    rewrite parse_config_spec. cbn [init file_path]. rewrite Hload.
    unfold bind at 1. rewrite get_duration_lift in *. cbn [fst] in Hdur. rewrite Hdur.
    unfold bind at 1.
    destruct (get_rate_returns config (mk_proc g [])) as (r' & p' & E & Hout).
    rewrite E in *. cbn [fst] in Hrate. injection Hrate as ->.
    exists p'. split; [|exact Hout].
    unfold bind.
    destruct Hzero as [Hd | (z & -> & Hz)];
      [rewrite loops_no_slot by assumption | rewrite loops_no_record by assumption];
      reflexivity. }
  destruct E as (p' & E & Hout).
  unfold run. rewrite generate_sequence_unfold, E. cbn. now rewrite Hout.
Qed.

(** ** The printed text *)

Lemma all_chars_of_append f (a b : string) :
  all_chars_of f (a ++ b) = all_chars_of f a && all_chars_of f b.
Proof.
  induction a as [|c a IH]; cbn [append all_chars_of]; [reflexivity|].
  now rewrite IH, andb_assoc.
Qed.

Lemma string_of_uint_printable (u : Decimal.uint) :
  all_chars_of printable_ascii (NilEmpty.string_of_uint u) = true.
Proof. induction u; cbn; assumption || reflexivity. Qed.

Lemma str_of_Z_printable n : all_chars_of printable_ascii (str_of_Z n) = true.
Proof.
  unfold str_of_Z, NilZero.string_of_int, NilZero.string_of_uint.
  destruct (Z.to_int n) as [u|u]; destruct u; cbn [all_chars_of];
    try reflexivity; cbn; apply string_of_uint_printable.
Qed.

Lemma json_escape_char_printable c :
  all_chars_of printable_ascii (json_escape_char c) = true.
Proof. all_chars c. Qed.

Lemma json_escape_printable s :
  all_chars_of printable_ascii (json_escape s) = true.
Proof.
  induction s as [|c s IH]; cbn [json_escape]; [reflexivity|].
  now rewrite all_chars_of_append, json_escape_char_printable, IH.
Qed.

Lemma json_str_printable s : all_chars_of printable_ascii (json_str s) = true.
Proof.
  unfold json_str. now rewrite !all_chars_of_append, json_escape_printable.
Qed.

Lemma json_field_printable key v :
  all_chars_of printable_ascii (json_field key v) = true.
Proof.
  destruct v as [s|]; [|reflexivity]. unfold json_field.
  now rewrite !all_chars_of_append, !json_str_printable.
Qed.

Lemma json_dumps_printable sequence :
  all_chars_of printable_ascii (json_dumps sequence) = true.
Proof.
  unfold json_dumps.
  now rewrite !all_chars_of_append, !json_field_printable, json_str_printable,
              str_of_Z_printable.
Qed.

(** X16.  Every line that a run prints is made of printable ASCII
    characters only (codes 32 to 126), whatever characters the colours
    and materials of the configuration hold: control characters, quotes
    and characters above 126 are escaped. *)
Theorem printed_lines_are_printable_ascii w path g :
  Forall (fun line => all_chars_of printable_ascii line = true)
         (stdout (snd (run w path g))).
Proof.
  unfold run. rewrite generate_sequence_unfold.
  pose proof (build_sequence_list_outcome w (init w path) (mk_proc g [])) as H.
  unfold post in H.
  destruct (build_sequence_list w (init w path) (mk_proc g [])) as [[built|e] p'].
  - cbn [snd stdout]. destruct H as [-> _]. cbn [stdout app].
    apply Forall_map, Forall_forall. intros it _. apply json_dumps_printable.
  - cbn [snd]. destruct H as [-> _]. constructor.
Qed.

(** ** check_file_format on a path with an extension *)

Lemma split_nonempty sep s : split sep s <> [].
Proof.
  destruct s as [|c s]; cbn [split]; [discriminate|].
  destruct (Ascii.eqb c sep); [discriminate|].
  destruct (split sep s); discriminate.
Qed.

Lemma last_split_extension prefix ext :
  contains_char "." ext = false ->
  exists seg segs,
    split "." (prefix ++ String "." ext) = seg :: segs
    /\ segs <> [] /\ last segs EmptyString = ext.
Proof.
  intros Hext. induction prefix as [|c prefix IH]; cbn [append split].
  - rewrite (split_dotless _ Hext). exists EmptyString, [ext].
    repeat split. discriminate.
  - destruct IH as (seg & segs & -> & Hne & Hlast).
    destruct (Ascii.eqb c "."); eexists _, _; (split; [reflexivity|]).
    + split; [discriminate|]. cbn [last]. destruct segs; [congruence | exact Hlast].
    + now split.
Qed.

(** X17.  On a path of the form prefix + "." + ext where [ext] holds no
    '.', [check_file_format] answers [True] exactly when [ext] is "json"
    up to letter case: only the text after the last '.' counts, and an
    empty extension is refused. *)
Theorem check_file_format_extension (prefix ext : string) (t : datetime) :
  contains_char "." ext = false ->
  check_file_format (mk_self (prefix ++ String "." ext) t) = caseless_eqb ext "json".
Proof.
  intros Hext. unfold check_file_format. cbn [file_path].
  destruct (last_split_extension prefix ext Hext) as (seg & segs & -> & Hne & Hlast).
  replace (last (seg :: segs) EmptyString) with ext
    by (cbn [last]; destruct segs; [congruence | now rewrite Hlast]).
  rewrite upper_is_JSON. now destruct (caseless_eqb ext "json").
Qed.

(** ** The printed order *)


Lemma sort_sorted_is_identity l :
  StronglySorted ts_le l -> sort_by_timestamp l = l.
Proof.
  induction l as [|x l IH]; intros Hs; cbn [sort_by_timestamp]; [reflexivity|].
  apply StronglySorted_inv in Hs. destruct Hs as [Hl Hx].
  rewrite (IH Hl). destruct l as [|y l]; cbn [insert_by_timestamp]; [reflexivity|].
  apply Forall_inv in Hx. unfold ts_le, String.leb in Hx. unfold String.ltb.
  rewrite String.compare_antisym.
  now destruct (String.compare (timestamp x) (timestamp y)).
Qed.

Lemma ascii_compare_refl c : Ascii.compare c c = Eq.
Proof. unfold Ascii.compare. apply N.compare_refl. Qed.

Lemma string_compare_refl s : String.compare s s = Eq.
Proof.
  induction s as [|c s IH]; cbn [String.compare]; [reflexivity|].
  now rewrite ascii_compare_refl.
Qed.

Lemma compare_append_same (a x y : string) :
  String.compare (a ++ x) (a ++ y) = String.compare x y.
Proof.
  induction a as [|c a IH]; cbn [append String.compare]; [reflexivity|].
  now rewrite ascii_compare_refl.
Qed.

Lemma compare_append_lt (u : string) :
  forall v x y,
    String.length u = String.length v ->
    String.compare u v = Lt -> String.compare (u ++ x) (v ++ y) = Lt.
Proof.
  induction u as [|c u IH]; intros [|c' v] x y Hlen; cbn [String.compare append];
    try discriminate.
  destruct (Ascii.compare c c'); try discriminate; [|reflexivity].
  apply IH. now injection Hlen.
Qed.

Lemma pad2_increasing a b :
  0 <= a < 100 -> 0 <= b < 100 -> a < b ->
  String.compare (pad2 a) (pad2 b) = Lt.
Proof.
  intros Ha Hb Hab.
  pose proof (forallb_Z_range
                (fun a => forallb (fun j =>
                   let b := Z.of_nat j in
                   if a <? b then
                     match String.compare (pad2 a) (pad2 b) with
                     | Lt => true | _ => false end
                   else true) (seq 0 100)) 0 100) as H.
  specialize (H ltac:(now vm_compute) a ltac:(lia)). cbv beta in H.
  rewrite forallb_forall in H. specialize (H (Z.to_nat b)).
  rewrite Z2Nat.id in H by lia. cbv zeta in H.
  replace (a <? b) with true in H by (symmetry; apply Z.ltb_lt; lia).
  specialize (H ltac:(apply in_seq; lia)).
  now destruct (String.compare (pad2 a) (pad2 b)).
Qed.

Lemma pad2_step a b x y :
  0 <= a < 100 -> 0 <= b < 100 ->
  String.compare (pad2 a ++ x) (pad2 b ++ y)
  = if a <? b then Lt else if a =? b then String.compare x y else Gt.
Proof.
  intros Ha Hb.
  destruct (Z.ltb_spec a b) as [Hlt|Hge].
  - apply compare_append_lt; [now rewrite !length_pad2 | now apply pad2_increasing].
  - destruct (Z.eqb_spec a b) as [->|Hne]; [apply compare_append_same|].
    rewrite String.compare_antisym.
    rewrite (compare_append_lt (pad2 b) (pad2 a) y x);
      [reflexivity | now rewrite !length_pad2 | apply pad2_increasing; lia].
Qed.

Lemma time_text_monotone a b :
  0 <= a -> a <= b -> b < 86400 ->
  String.compare (time_text a) (time_text b) <> Gt.
Proof.
  intros Ha Hab Hb. unfold time_text.
  rewrite pad2_step by (Z.div_mod_to_equations; lia).
  destruct (Z.ltb_spec (a / 3600) (b / 3600)) as [|H1]; [discriminate|].
  destruct (Z.eqb_spec (a / 3600) (b / 3600)) as [E1|N1];
    [|exfalso; Z.div_mod_to_equations; lia].
  cbn [append String.compare]. rewrite ascii_compare_refl.
  rewrite pad2_step by (Z.div_mod_to_equations; lia).
  destruct (Z.ltb_spec (a mod 3600 / 60) (b mod 3600 / 60)) as [|H2]; [discriminate|].
  destruct (Z.eqb_spec (a mod 3600 / 60) (b mod 3600 / 60)) as [E2|N2];
    [|exfalso; Z.div_mod_to_equations; lia].
  cbn [append String.compare]. rewrite ascii_compare_refl.
  destruct (Z.eq_dec a b) as [->|Hneq]; [now rewrite string_compare_refl|].
  rewrite pad2_increasing; [discriminate | | |]; Z.div_mod_to_equations; lia.
Qed.

Lemma year_day_month_time t :
  year_day_month t
  = (str_of_Z (year t) ++ "-" ++ pad2 (day t) ++ "-" ++ pad2 (month t) ++ ", "
     ++ time_text (dt_second t))%string.
Proof. reflexivity. Qed.

Lemma after_seconds_same_day start k :
  datetime_ok start = true -> 0 <= k -> dt_second start + k < 86400 ->
  after_seconds start k
  = mk_datetime (dt_ordinal start) (dt_second start + k) (dt_microsecond start).
Proof.
  intros Hok Hk Hday. apply datetime_ok_bounds in Hok.
  unfold after_seconds, total_seconds. f_equal; Z.div_mod_to_equations; lia.
Qed.

Lemma ts_le_same_day start i j :
  datetime_ok start = true ->
  1 <= i -> i <= j -> dt_second start + j <= 86400 ->
  String.leb (year_day_month (after_seconds start (i - 1)))
             (year_day_month (after_seconds start (j - 1))) = true.
Proof.
  intros Hok Hi Hij Hday.
  rewrite !after_seconds_same_day by (assumption || lia).
  rewrite !year_day_month_time. unfold year, month, day.
  cbn [dt_ordinal dt_second].
  unfold String.leb.
  rewrite compare_append_same. cbn [append String.compare].
  rewrite ascii_compare_refl, compare_append_same.
  cbn [append String.compare]. rewrite ascii_compare_refl, compare_append_same.
  cbn [append String.compare]. rewrite !ascii_compare_refl.
  apply datetime_ok_bounds in Hok.
  pose proof (time_text_monotone (dt_second start + (i - 1))
                (dt_second start + (j - 1)) ltac:(lia) ltac:(lia) ltac:(lia)) as H.
  now destruct (String.compare _ _).
Qed.

Lemma stamped_ids_sorted start l :
  datetime_ok start = true ->
  forall a,
    1 <= a ->
    map id l = map Z.of_nat (seq (Z.to_nat a) (List.length l)) ->
    Forall (stamped start) l ->
    dt_second start + (a - 1) + Z.of_nat (List.length l) <= 86400 ->
    StronglySorted ts_le l.
Proof.
  intros Hok. induction l as [|x l IH]; intros a Ha Hids Hst Hday; [constructor|].
  cbn [List.length seq map] in Hids. injection Hids as Hx Hids.
  apply Forall_cons_iff in Hst. destruct Hst as [Hsx Hsl].
  cbn [List.length] in Hday.
  constructor.
  - apply (IH (a + 1)); try assumption; try lia.
    now replace (Z.to_nat (a + 1)) with (S (Z.to_nat a)) by lia.
  - rewrite Forall_forall. intros y Hy.
    assert (Hyid : In (id y) (map id l)) by now apply in_map.
    rewrite Hids in Hyid. apply in_map_iff in Hyid.
    destruct Hyid as (n & Hn & Hin). apply in_seq in Hin.
    rewrite Forall_forall in Hsl. specialize (Hsl y Hy).
    unfold ts_le. unfold stamped in Hsx, Hsl. rewrite Hsx, Hsl.
    apply ts_le_same_day; try assumption; lia.
Qed.

(** X19.  When the run starts at a well-formed time and all its records
    fall on the calendar day of the start (the second of the day plus
    the number of records does not pass midnight), sorting changes
    nothing: the records are printed in the order of their ids. *)
Theorem same_day_run_prints_in_id_order w path g built p' :
  (exists config, load_json w path = Loaded config) ->
  datetime_ok (now w) = true ->
  build_sequence_list w (init w path) (mk_proc g []) = (Ok built, p') ->
  dt_second (now w) + Z.of_nat (List.length built) <= 86400 ->
  stdout (snd (run w path g)) = map json_dumps built.
Proof.
  intros [config Hload] Hok Hbuild Hday.
  destruct (build_sequence_list_items w path g (fun _ => True) (fun _ => True)
              config built p' Hload) as (d & r & _ & _ & Hinv);
    [intros q; apply post_weaken with (1 := trivial_field_post _ q); auto ..
    | exact Hbuild |].
  destruct Hinv as (Hlen & _ & Hids & Hst & _). cbn [sequence_list] in *.
  pose proof (build_sequence_list_outcome w (init w path) (mk_proc g [])) as Hout.
  unfold post in Hout. rewrite Hbuild in Hout. destruct Hout as [Hout _].
  unfold run. rewrite generate_sequence_unfold, Hbuild. cbn [snd stdout].
  rewrite Hout. cbn [stdout app]. f_equal.
  apply sort_sorted_is_identity.
  apply (stamped_ids_sorted (now w) built Hok 1); auto; try lia.
  rewrite Hids, <- Hlen. reflexivity.
Qed.

(** ** Decimal strings *)














(** ** The further properties on samples *)

(** X1 on a sample: the colour pool is declared empty. *)
Lemma run_that_raises_prints_nothing_witness :
  stdout (snd (run (configured clock (with_colours 1 1 [])) "config.json" zeros)) = [].
Proof.
  apply (run_that_raises_prints_nothing
           (configured clock (with_colours 1 1 [])) "config.json" zeros IndexError).
  reflexivity.
Defined.

(** X5 on a sample: the range 2..5 and the draw 2 give the rate 4. *)
Lemma get_rate_range_inclusive_witness :
  get_rate (with_rate (rate_range 2 5) []) (mk_proc (rng_cons 2 zeros) [])
  = (Ok (Some 4), mk_proc zeros []).
Proof.
  apply (proj2 (get_rate_range_inclusive [] 2 5 ltac:(lia)) 4 zeros []). lia.
Defined.

(** X6 on a sample: the range from 3 down to 2. *)
Lemma get_rate_reversed_range_witness :
  get_rate (with_rate (rate_range 3 2) []) fresh = (Ok None, fresh).
Proof. apply (get_rate_reversed_range [] 3 2 fresh). lia. Defined.

(** X7 on a sample: the rate "3", a string. *)
Lemma get_rate_fallback_witness :
  get_rate (with_rate (PStr "3") []) fresh = (Ok (Some 3), fresh).
Proof.
  apply (get_rate_fallback [] (PStr "3") fresh). intros lo hi H. discriminate H.
Defined.

(** X8 on a sample: duration 2 and the range from 3 down to 2. *)
Lemma rate_none_stops_the_run_witness :
  fst (run (configured clock (with_rate (rate_range 3 2) (plain 2 1)))
           "config.json" zeros) = Raise TypeError
  /\ stdout (snd (run (configured clock (with_rate (rate_range 3 2) (plain 2 1)))
                      "config.json" zeros)) = [].
Proof.
  apply (rate_none_stops_the_run
           (configured clock (with_rate (rate_range 3 2) (plain 2 1)))
           "config.json" zeros (with_rate (rate_range 3 2) (plain 2 1)) 2);
    try reflexivity; lia.
Defined.

(** X9 on a sample: the draw 1 picks the second colour. *)
Lemma attribute_drawn_from_pool_witness :
  get_colour_attribute (with_pools 1 1 [PStr "red"; PStr "blue"] [PStr "paper"])
                       (mk_proc (rng_cons 1 zeros) [])
  = (Ok (Some "blue"), mk_proc zeros []).
Proof.
  destruct (attribute_drawn_from_pool
              (with_pools 1 1 [PStr "red"; PStr "blue"] [PStr "paper"])
              [PStr "red"; PStr "blue"] ltac:(discriminate)) as [Hc _].
  destruct (Hc eq_refl) as [_ H].
  exact (H 1%nat (PStr "blue") zeros [] eq_refl).
Defined.

(** X10 on a sample: a configuration without "attributes". *)
Lemma attribute_left_out_witness :
  get_colour_attribute (PDict (plain 1 1)) fresh = (Ok None, fresh)
  /\ get_material_attribute (PDict (plain 1 1)) fresh = (Ok None, fresh).
Proof.
  destruct (attribute_left_out (PDict (plain 1 1)) fresh) as (Hc & _ & Hm & _).
  split; [apply Hc | apply Hm]; reflexivity.
Defined.

(** X11 on a sample: duration 2, rate 1. *)
Lemma completed_build_items_witness :
  List.length red_items = 2%nat
  /\ map id red_items = [1; 2]
  /\ Forall (stamped clock) red_items.
Proof.
  apply (completed_build_items (configured clock red_config) "config.json" zeros
           red_config 2 (Some 1) red_items (drawn 2 fresh));
    reflexivity.
Defined.

(** X12 on a sample: one colour and one material to draw from. *)
Lemma fields_come_from_the_pools_witness :
  Forall (fun it => text_from [PStr "red"] (colour it)) red_paper_items
  /\ Forall (fun it => text_from [PStr "paper"] (material it)) red_paper_items.
Proof.
  destruct (fields_come_from_the_pools
              (configured clock red_paper_config) "config.json" zeros
              red_paper_config red_paper_items (drawn 4 fresh)
              eq_refl eq_refl) as [Hc Hm].
  split; [apply Hc | apply Hm]; reflexivity.
Defined.

(** X13 on a sample: no "material" in the configuration. *)
Lemma left_out_attribute_never_appears_witness :
  Forall (fun it => material it = None) red_items.
Proof.
  destruct (left_out_attribute_never_appears
              (configured clock red_config) "config.json" zeros
              red_config red_items (drawn 2 fresh) eq_refl eq_refl) as [_ Hm].
  apply Hm. reflexivity.
Defined.

(** X14 on a sample: the pools ["red"] and ["paper"]. *)
Lemma single_value_pool_witness :
  Forall (fun it => colour it = Some "red") red_paper_items.
Proof.
  destruct (single_value_pool
              (configured clock red_paper_config) "config.json" zeros
              red_paper_config (PStr "red") red_paper_items (drawn 4 fresh)
              eq_refl ltac:(discriminate) eq_refl) as [Hc _].
  apply Hc. reflexivity.
Defined.

(** X15 on a sample: duration 0, with both pools declared empty. *)
Lemma no_slot_or_no_record_prints_nothing_witness :
  fst (run (configured clock (with_pools 0 3 [] [])) "config.json" zeros) = Ok tt
  /\ stdout (snd (run (configured clock (with_pools 0 3 [] [])) "config.json" zeros))
     = [].
Proof.
  apply (no_slot_or_no_record_prints_nothing
           (configured clock (with_pools 0 3 [] [])) "config.json" zeros
           (with_pools 0 3 [] []) 0 (Some 3)); try reflexivity.
  left. lia.
Defined.

(** X17 on a sample: only the last extension counts. *)
Lemma check_file_format_extension_witness :
  check_file_format (mk_self "data/my.config.JSON" clock) = true.
Proof. exact (check_file_format_extension "data/my.config" "JSON" clock eq_refl). Defined.


(** X19 on a sample: two records in the afternoon. *)
Lemma same_day_run_prints_in_id_order_witness :
  stdout (snd (run (configured clock (PDict (plain 2 1))) "config.json" zeros))
  = map json_dumps bare_items.
Proof.
  apply (same_day_run_prints_in_id_order
           (configured clock (PDict (plain 2 1))) "config.json" zeros
           bare_items fresh).
  - exists (PDict (plain 2 1)). reflexivity.
  - reflexivity.
  - reflexivity.
  - vm_compute. discriminate.
Defined.
